(** * UFO: the Gemini service adapter (ufo/llm/gemini.py)

    A shallow embedding of [GeminiService]: the message translator
    ([process_messages], [base64_to_blob]), the response extractor
    ([get_text_from_all_candidates]) and the entry point ([chat_completion]),
    together with the parts of the Python runtime they rely on (dynamic
    values, subscripting, iteration, [re.match] on the data-URL pattern,
    [base64.b64decode], [str.split]).

    Conventions.
    - The functions take arguments annotated [Any] or loosely typed
      dictionaries, so messages and responses are values of a small universe
      of Python values, [pyval].  A [dict] and the [__dict__] of an instance
      are association lists in insertion order (the extractor iterates over
      [__dict__.items()]).
    - A Python [str] is a [string]: its characters are the code points below
      256.
    - Exceptions and console output are explicit: a computation is a pair of
      the lines it printed and either the exception raised or the value
      returned. *)

From Stdlib Require Import List String Ascii Strings.Byte Bool NArith ZArith Lia.
From Stdlib Require Import DecimalString.
From Stdlib Require Import Floats.PrimFloat Floats.SpecFloat Floats.FloatOps.
Import ListNotations.

Set Warnings "-register-all,-inexact-float".

Local Open Scope string_scope.
Local Open Scope list_scope.

(** ** Python values *)

(** An instance [VObj truth fields others] is known by what the module can
    observe of it: [truth] is [bool(v)] ([True] unless the class defines
    [__bool__] or [__len__]), [fields] is its [__dict__], and [others] are
    the attributes it has besides (class attributes, or what [__getattr__]
    serves, as the message classes of the vendor SDK do). *)
Inductive pyval : Type :=
| VNone
| VBool (b : bool)
| VInt (z : Z)
| VFloat (f : float)
| VStr (s : string)
| VBytes (bs : list byte)
| VList (items : list pyval)
| VDict (entries : list (string * pyval))
| VObj (truth : bool) (fields others : list (string * pyval)).

(** A plain instance, such as a [types.SimpleNamespace]. *)
Definition instance (fields : list (string * pyval)) : pyval :=
  VObj true fields [].

(** Exceptions, by class; the message is kept where the source or the
    library fixes it.  [BinasciiError] is [binascii.Error]; [ProviderError]
    stands for whatever the vendor SDK raises. *)
Inductive exn : Type :=
| ValueError (msg : string)
| BinasciiError (msg : string)
| TypeError
| KeyError (key : string)
| AttributeError (name : string)
| OverflowError
| ProviderError (msg : string).

(** What the module prints, one constructor per [print] call of the source. *)
Inductive event : Type :=
| ErrorInChatCompletion (e : exn)
    (* print(f"Error in Gemini chat completion: {str(e)}") *)
| CouldNotParseDataURL
    (* print("Error: Could not parse the data URL.") *)
| WarnNoCandidates
    (* print("Warning: Response object does not contain candidates.") *)
| WarnCandidateNoContent (i : nat)
    (* print(f"Warning: Candidate {i} has no content or parts.") *)
| WarnNonTextParts (i : nat) (names : list string).
    (* print(f'Warning: Candidate {i}: Contains non-text parts: {...}. ...') *)

(** ** Computations: printed lines and an exception or a value *)

Definition M (A : Type) : Type := list event * (exn + A).

Definition ret {A} (a : A) : M A := ([], inr a).
Definition raise {A} (e : exn) : M A := ([], inl e).
Definition print (ev : event) : M unit := ([ev], inr tt).
Definition lift {A} (r : exn + A) : M A := ([], r).

Definition bind {A B} (m : M A) (k : A -> M B) : M B :=
  match m with
  | (out, inl e) => (out, inl e)
  | (out, inr a) => let (out', r) := k a in (out ++ out', r)
  end.

(** [try: m  except Exception as e: h e] *)
Definition try_except {A} (m : M A) (h : exn -> M A) : M A :=
  match m with
  | (out, inl e) => let (out', r) := h e in (out ++ out', r)
  | (out, inr a) => (out, inr a)
  end.

Declare Scope py_scope.
Delimit Scope py_scope with py.
Notation "x <- m ;; k" := (bind m (fun x => k))
  (at level 61, m at next level, right associativity) : py_scope.
Notation "m ;;; k" := (bind m (fun _ => k))
  (at level 61, right associativity) : py_scope.
Local Open Scope py_scope.

(** [for x in items: body], the body threading the variables it updates. *)
Fixpoint for_each {A S} (items : list A) (body : A -> S -> M S) (st : S) : M S :=
  match items with
  | [] => ret st
  | x :: rest => st' <- body x st ;; for_each rest body st'
  end.

(** [enumerate(items)] *)
Definition enumerate {A} (items : list A) : list (nat * A) :=
  combine (seq 0 (List.length items)) items.

Definition returns {A} (m : M A) (a : A) : Prop := snd m = inr a.
Definition raises {A} (m : M A) (e : exn) : Prop := snd m = inl e.
Definition fails {A} (m : M A) : Prop := exists e, snd m = inl e.

(** ** The Python operations the module uses *)

Fixpoint lookup {A} (k : string) (d : list (string * A)) : option A :=
  match d with
  | [] => None
  | (k', v) :: d' => if String.eqb k k' then Some v else lookup k d'
  end.

(** [bool(v)] *)
Definition truthy (v : pyval) : bool :=
  match v with
  | VNone => false
  | VBool b => b
  | VInt z => negb (Z.eqb z 0)
  | VFloat f => negb (PrimFloat.eqb f 0)
  | VStr s => negb (String.eqb s "")
  | VBytes bs => match bs with [] => false | _ => true end
  | VList l => match l with [] => false | _ => true end
  | VDict d => match d with [] => false | _ => true end
  | VObj truth _ _ => truth
  end.

Definition is_none (v : pyval) : bool :=
  match v with VNone => true | _ => false end.

(** [v == s] for a string literal [s]. *)
Definition eq_str (v : pyval) (s : string) : bool :=
  match v with VStr t => String.eqb t s | _ => false end.

(** [v[k]] for a string key [k]: only a [dict] can be subscripted by a
    string. *)
Definition getitem (v : pyval) (k : string) : M pyval :=
  match v with
  | VDict d => match lookup k d with
               | Some x => ret x
               | None => raise (KeyError k)
               end
  | _ => raise TypeError
  end.

(** [hasattr(v, name)] and [v.name], for the attribute names the module
    probes ([candidates], [content], [parts], [text], [thought], and the
    methods [get] and [split] where the value is not of a built-in type):
    none of the other values has them, an instance has what its [__dict__]
    holds and its other attributes.  Reading an attribute that exists gives
    its value and raises nothing. *)
Definition attr (v : pyval) (name : string) : option pyval :=
  match v with
  | VObj _ fields others =>
      match lookup name fields with
      | Some x => Some x
      | None => lookup name others
      end
  | _ => None
  end.

Definition hasattr (v : pyval) (name : string) : bool :=
  match attr v name with Some _ => true | None => false end.

Definition getattr (v : pyval) (name : string) : M pyval :=
  match attr v name with
  | Some x => ret x
  | None => raise (AttributeError name)
  end.

(** [d.get(k, default)]: the method exists on a [dict]; an instance has
    it only as an attribute, and no value of this universe is callable. *)
Definition dict_get (v : pyval) (k : string) (default : pyval) : M pyval :=
  match v with
  | VDict d => match lookup k d with
               | Some x => ret x
               | None => ret default
               end
  | VObj _ _ _ => match attr v "get" with
                   | Some _ => raise TypeError
                   | None => raise (AttributeError "get")
                   end
  | _ => raise (AttributeError "get")
  end.

(** The items a [for] loop visits. *)
Definition py_iter (v : pyval) : M (list pyval) :=
  match v with
  | VList l => ret l
  | VStr s => ret (map (fun c => VStr (String c "")) (list_ascii_of_string s))
  | VBytes bs => ret (map (fun b => VInt (Z.of_N (Byte.to_N b))) bs)
  | VDict d => ret (map (fun kv => VStr (fst kv)) d)
  | _ => raise TypeError
  end.

(** [v.__dict__.items()] *)
Definition dict_items (v : pyval) : M (list (string * pyval)) :=
  match v with
  | VObj _ fields _ => ret fields
  | _ => raise (AttributeError "__dict__")
  end.

(** *** [str.split()] and [bytes.split()] without arguments *)

(** [str.isspace] on the code points below 256. *)
Definition is_space (c : ascii) : bool :=
  let n := N_of_ascii c in
  ((9 <=? n) && (n <=? 13) || (28 <=? n) && (n <=? 32) ||
   (n =? 133) || (n =? 160))%N.

(** ASCII whitespace, as [bytes.split] uses it. *)
Definition is_space_byte (b : byte) : bool :=
  let n := Byte.to_N b in
  ((9 <=? n) && (n <=? 13) || (n =? 32))%N.

(** Number of maximal runs of items that are not separators: [len(x.split())]. *)
Fixpoint count_runs {A} (sep : A -> bool) (in_run : bool) (l : list A) : nat :=
  match l with
  | [] => 0
  | c :: l' =>
      if sep c then count_runs sep false l'
      else (if in_run then 0 else 1) + count_runs sep true l'
  end.

Definition count_words (s : string) : nat :=
  count_runs is_space false (list_ascii_of_string s).

(** [len(v.split())] *)
Definition split_len (v : pyval) : M Z :=
  match v with
  | VStr s => ret (Z.of_nat (count_words s))
  | VBytes bs => ret (Z.of_nat (count_runs is_space_byte false bs))
  | VObj _ _ _ => match attr v "split" with
                   | Some _ => raise TypeError
                   | None => raise (AttributeError "split")
                   end
  | _ => raise (AttributeError "split")
  end.

(** *** [re.match(r'data:(?P<mime_type>image/.+?);base64,(?P<base64_string>.+)', s)]

    The pattern is anchored at the start of [s] only.  [.] is any character
    but a line feed.  The matcher is the backtracking search of [re] written
    out for this pattern: literals consume a prefix, the lazy [.+?] takes one
    character and then tries the rest of the pattern before taking another,
    and the final greedy [.+] takes the longest run there is. *)

Fixpoint strip_prefix (p s : string) : option string :=
  match p, s with
  | EmptyString, _ => Some s
  | String a p', String b s' => if Ascii.eqb a b then strip_prefix p' s' else None
  | String _ _, EmptyString => None
  end.

Definition is_newline (c : ascii) : bool := Ascii.eqb c "010"%char.

(** The span of [.*] at the end of a pattern. *)
Fixpoint dot_star (s : string) : string :=
  match s with
  | EmptyString => EmptyString
  | String c s' => if is_newline c then EmptyString else String c (dot_star s')
  end.

(** [.+] at the end of a pattern. *)
Definition dot_plus (s : string) : option string :=
  match dot_star s with
  | EmptyString => None
  | m => Some m
  end.

(** [.+?] followed by the rest of the pattern, [k]; [taken] is what the
    quantifier has consumed so far. *)
Fixpoint dot_plus_lazy {A} (k : string -> string -> option A)
    (taken s : string) : option A :=
  match s with
  | EmptyString => None
  | String c s' =>
      if is_newline c then None
      else
        let taken' := (taken ++ String c EmptyString)%string in
        match k taken' s' with
        | Some r => Some r
        | None => dot_plus_lazy k taken' s'
        end
  end.

(** The rest of the pattern after the group [mime_type]. *)
Definition after_mime (subtype rest : string) : option (string * string) :=
  match strip_prefix ";base64," rest with
  | None => None
  | Some payload =>
      match dot_plus payload with
      | None => None
      | Some base64_string => Some (("image/" ++ subtype)%string, base64_string)
      end
  end.

(** The groups [mime_type] and [base64_string] of the match, if any: the
    literal [data:], then the group, which opens with the literal [image/]. *)
Definition match_data_url (s : string) : option (string * string) :=
  match strip_prefix "data:image/" s with
  | None => None
  | Some rest => dot_plus_lazy after_mime "" rest
  end.

(** *** [base64.b64decode(s)] (validate=False) and standard base64 *)

Definition alphabet : string :=
  "ABCDEFGHIJKLMNOPQRSTUVWXYZabcdefghijklmnopqrstuvwxyz0123456789+/".

Definition BASE64_PAD : ascii := "="%char.

(** [table_a2b_base64] of binascii: the value of a character of the
    alphabet, 255 for any other character. *)
Definition table_a2b_base64 (c : ascii) : N :=
  let n := N_of_ascii c in
  (if (65 <=? n) && (n <=? 90) then n - 65
   else if (97 <=? n) && (n <=? 122) then n - 97 + 26
   else if (48 <=? n) && (n <=? 57) then n - 48 + 52
   else if n =? 43 then 62
   else if n =? 47 then 63
   else 255)%N.

(** Storing into an [unsigned char]. *)
Definition u8 (n : N) : byte :=
  match Byte.of_N (n mod 256) with
  | Some b => b
  | None => x00
  end.

(** The loop of [binascii.a2b_base64] in its default, non-strict mode:
    characters outside the alphabet are skipped, a pad ends the input once
    it completes a quad, and a quad left open is an error. *)
Fixpoint a2b_loop (cs : list ascii) (quad_pos : nat) (leftchar : N)
    (pads : nat) (bin_data : list byte) : exn + list byte :=
  match cs with
  | [] =>
      match quad_pos with
      | 0 => inr bin_data
      | 1 => inl (BinasciiError
                    ("Invalid base64-encoded string: number of data characters ("
                     ++ NilEmpty.string_of_uint
                          (Nat.to_uint (List.length bin_data / 3 * 4 + 1))
                     ++ ") cannot be 1 more than a multiple of 4")%string)
      | _ => inl (BinasciiError "Incorrect padding")
      end
  | this_ch :: rest =>
      if Ascii.eqb this_ch BASE64_PAD then
        if (2 <=? quad_pos)%nat then
          if (4 <=? quad_pos + S pads)%nat then inr bin_data
          else a2b_loop rest quad_pos leftchar (S pads) bin_data
        else a2b_loop rest quad_pos leftchar pads bin_data
      else
        let v := table_a2b_base64 this_ch in
        if (64 <=? v)%N then a2b_loop rest quad_pos leftchar pads bin_data
        else
          match quad_pos with
          | 0 => a2b_loop rest 1 v 0 bin_data
          | 1 => a2b_loop rest 2 (N.land v 15) 0
                   (bin_data ++ [u8 (N.lor (N.shiftl leftchar 2) (N.shiftr v 4))])
          | 2 => a2b_loop rest 3 (N.land v 3) 0
                   (bin_data ++ [u8 (N.lor (N.shiftl leftchar 4) (N.shiftr v 2))])
          | _ => a2b_loop rest 0 0%N 0
                   (bin_data ++ [u8 (N.lor (N.shiftl leftchar 6) v)])
          end
  end.

Definition a2b_base64 (s : string) : exn + list byte :=
  a2b_loop (list_ascii_of_string s) 0 0%N 0 [].

Definition is_ascii (c : ascii) : bool := (N_of_ascii c <? 128)%N.

(** [base64.b64decode] of a [str]: the string is encoded to ASCII first. *)
Definition b64decode (s : string) : M (list byte) :=
  if forallb is_ascii (list_ascii_of_string s) then lift (a2b_base64 s)
  else raise (ValueError "string argument should contain only ASCII characters").

(** Standard base64 with padding (RFC 4648, [base64.b64encode]): what a
    caller uses to build a data URL. *)
Definition b2a (v : N) : ascii :=
  nth (N.to_nat v) (list_ascii_of_string alphabet) BASE64_PAD.

(** The four 6-bit groups of three bytes. *)
Definition sextet0 (a : N) : N := N.shiftr a 2.
Definition sextet1 (a b : N) : N := N.lor (N.shiftl (N.land a 3) 4) (N.shiftr b 4).
Definition sextet2 (b c : N) : N := N.lor (N.shiftl (N.land b 15) 2) (N.shiftr c 6).
Definition sextet3 (c : N) : N := N.land c 63.

(** A last group of one or two bytes is completed with zero bits and
    padded. *)
Fixpoint b64encode_chars (bs : list byte) : list ascii :=
  match bs with
  | [] => []
  | [a] =>
      let a := Byte.to_N a in
      [b2a (sextet0 a); b2a (sextet1 a 0); BASE64_PAD; BASE64_PAD]
  | [a; b] =>
      let a := Byte.to_N a in
      let b := Byte.to_N b in
      [b2a (sextet0 a); b2a (sextet1 a b); b2a (sextet2 b 0); BASE64_PAD]
  | a :: b :: c :: rest =>
      let a := Byte.to_N a in
      let b := Byte.to_N b in
      let c := Byte.to_N c in
      b2a (sextet0 a) :: b2a (sextet1 a b) :: b2a (sextet2 b c)
      :: b2a (sextet3 c) :: b64encode_chars rest
  end.

Definition b64encode (bs : list byte) : string :=
  string_of_list_ascii (b64encode_chars bs).

(** ["data:<mime>;base64,<b64>"] *)
Definition data_url (mime : string) (bs : list byte) : string :=
  ("data:" ++ mime ++ ";base64," ++ b64encode bs)%string.

(** [int * float]: the integer is converted to the nearest double, and
    one too large for a double is an [OverflowError]. *)
Definition float_of_int (z : Z) : M float :=
  let f := SF2Prim (binary_normalize prec emax z 0 false) in
  if PrimFloat.is_infinity f then raise OverflowError else ret f.

(** ** GeminiService *)

(** The generation config handed to the provider. *)
Record GenerationConfig : Type := {
  max_output_tokens : Z;
  temperature : float;
  top_p : float
}.

(** An entry of [MODEL_COSTS]. *)
Record ModelCost : Type := {
  input_cost : option float;
  output_cost : option float
}.

(** The keys of the configuration that [chat_completion] reads; an optional
    key is an [option]. *)
Record Config : Type := {
  MAX_TOKENS : Z;
  TEMPERATURE : float;
  TOP_P : float;
  ENABLE_COST_TRACKING : option bool;
  MODEL_COSTS : option (list (string * ModelCost))
}.

(** The service: its configuration, the model name and the model handle of
    the vendor SDK, of which only [generate_content] is used. *)
Record GeminiService : Type := {
  config : Config;
  model_name : string;
  generate_content : list pyval -> GenerationConfig -> exn + pyval
}.

(** *** base64_to_blob *)

Definition base64_to_blob (base64_str : pyval) : M pyval :=
  match base64_str with
  | VStr s =>
      match match_data_url s with
      | Some (mime_type, base64_string) =>
          data <- b64decode base64_string ;;
          ret (VDict [("mime_type", VStr mime_type); ("data", VBytes data)])
      | None =>
          print CouldNotParseDataURL ;;;
          raise (ValueError "Invalid data URL format.")
      end
  | _ => raise TypeError  (* re.match expects a string *)
  end.

(** *** process_messages *)

Section Translator.

(** [str(v)] for a value that is not a string; left open (the text of an
    instance holds its address). *)
Variable py_str : pyval -> string.

(** [f"{v}"] *)
Definition py_format (v : pyval) : string :=
  match v with
  | VStr s => s
  | _ => py_str v
  end.

(** The body of the loop over the content parts of a message.  The source
    reads [content["type"]] for each of the two tests; reading it has no
    effect, so it is bound once. *)
Definition process_part (content : pyval) (prompt_contents : list pyval)
    : M (list pyval) :=
  type <- getitem content "type" ;;
  if eq_str type "text" then
    prompt <- getitem content "text" ;;
    ret (prompt_contents ++ [prompt])
  else if eq_str type "image_url" then
    image_url <- getitem content "image_url" ;;
    url <- getitem image_url "url" ;;
    prompt <- base64_to_blob url ;;
    mime_type <- getitem prompt "mime_type" ;;
    data <- getitem prompt "data" ;;
    ret (prompt_contents ++ [VDict [("mime_type", mime_type); ("data", data)]])
  else ret prompt_contents.

(** The body of the loop over the messages. *)
Definition process_message (message : pyval) (prompt_contents : list pyval)
    : M (list pyval) :=
  role <- getitem message "role" ;;
  if eq_str role "system" then
    content <- getitem message "content" ;;
    let prompt := ("Your general instruction: " ++ py_format content)%string in
    ret (prompt_contents ++ [VStr prompt])
  else
    content <- getitem message "content" ;;
    parts <- py_iter content ;;
    for_each parts process_part prompt_contents.

Definition process_messages (messages : pyval) : M (list pyval) :=
  let messages :=
    match messages with
    | VDict _ => VList [messages]   (* isinstance(messages, dict) *)
    | _ => messages
    end in
  items <- py_iter messages ;;
  for_each items process_message [].

End Translator.

(** *** get_text_from_all_candidates *)

(** The loop over [part.__dict__.items()]. *)
Fixpoint scan_fields (fields : list (string * pyval))
    (non_text_parts_found : list string) : list string :=
  match fields with
  | [] => non_text_parts_found
  | (field_name, field_value) :: rest =>
      if negb (is_none field_value)
         && negb (existsb (String.eqb field_name) ["text"; "thought"])
      then
        if existsb (String.eqb field_name) non_text_parts_found
        then scan_fields rest non_text_parts_found
        else scan_fields rest (non_text_parts_found ++ [field_name])
      else scan_fields rest non_text_parts_found
  end.

(** The locals of one iteration of the loop over the candidates. *)
Record candidate_state : Type := {
  candidate_text : string;
  any_text_part_found : bool;
  non_text_parts_found : list string
}.

(** The body of the loop over [candidate.content.parts]. *)
Definition scan_part (part : pyval) (st : candidate_state) : M candidate_state :=
  fields <- dict_items part ;;
  let found := scan_fields fields (non_text_parts_found st) in
  match attr part "text" with
  | Some (VStr text) =>
      (* hasattr(part, 'text') and isinstance(part.text, str) *)
      if match attr part "thought" with
         | Some thought => truthy thought
         | None => false
         end
      then
        ret {| candidate_text := candidate_text st;
               any_text_part_found := any_text_part_found st;
               non_text_parts_found := found |}
      else
        ret {| candidate_text := (candidate_text st ++ text)%string;
               any_text_part_found := true;
               non_text_parts_found := found |}
  | _ =>
      ret {| candidate_text := candidate_text st;
             any_text_part_found := any_text_part_found st;
             non_text_parts_found := found |}
  end.

(** [not candidate or not hasattr(candidate, 'content')
     or not hasattr(candidate.content, 'parts')], negated. *)
Definition has_parts (candidate : pyval) : bool :=
  truthy candidate &&
  match attr candidate "content" with
  | Some content => hasattr content "parts"
  | None => false
  end.

(** The body of the loop over [enumerate(response.candidates)]. *)
Definition scan_candidate (indexed : nat * pyval)
    (all_texts : list (option string)) : M (list (option string)) :=
  let (i, candidate) := indexed in
  if negb (has_parts candidate) then
    print (WarnCandidateNoContent i) ;;;
    ret (all_texts ++ [None])
  else
    content <- getattr candidate "content" ;;
    parts <- getattr content "parts" ;;
    items <- py_iter parts ;;
    st <- for_each items scan_part
            {| candidate_text := "";
               any_text_part_found := false;
               non_text_parts_found := [] |} ;;
    (match non_text_parts_found st with
     | [] => ret tt
     | names => print (WarnNonTextParts i names)
     end) ;;;
    ret (all_texts ++
           [if any_text_part_found st then Some (candidate_text st) else None]).

Definition get_text_from_all_candidates (response : pyval)
    : M (list (option string)) :=
  if negb (truthy response) || negb (hasattr response "candidates") then
    print WarnNoCandidates ;;;
    ret []
  else
    candidates <- getattr response "candidates" ;;
    items <- py_iter candidates ;;
    for_each (enumerate items) scan_candidate [].

(** *** chat_completion *)

(** One term of [sum(len(msg.get("content", "").split()) for msg in messages)],
    added to the running total. *)
Definition add_word_count (msg : pyval) (total : Z) : M Z :=
  content <- dict_get msg "content" (VStr "") ;;
  words <- split_len content ;;
  ret (total + words)%Z.

(** [model_costs.get(model_name, {}).get(key, 0.0)] *)
Definition unit_cost (model_costs : list (string * ModelCost))
    (model_name : string) (key : ModelCost -> option float) : float :=
  match lookup model_name model_costs with
  | Some entry => match key entry with Some c => c | None => 0%float end
  | None => 0%float
  end.

(** The block guarded by [ENABLE_COST_TRACKING]. *)
Definition estimate_cost (self : GeminiService) (messages response : pyval)
    : M float :=
  let model_costs :=
    match MODEL_COSTS (config self) with Some t => t | None => [] end in
  let input_cost := unit_cost model_costs (model_name self) input_cost in
  let output_cost := unit_cost model_costs (model_name self) output_cost in
  items <- py_iter messages ;;
  input_tokens <- for_each items add_word_count 0%Z ;;
  text <- getattr response "text" ;;
  output_tokens <- split_len text ;;
  input_total <- float_of_int input_tokens ;;
  output_total <- float_of_int output_tokens ;;
  ret (input_total * input_cost + output_total * output_cost)%float.

(** The dictionary [genai_config]. *)
Definition generation_config (self : GeminiService) (temperature : option float)
    (max_tokens : option Z) (top_p : option float) : GenerationConfig :=
  {| max_output_tokens :=
       match max_tokens with
       | Some v => v
       | None => MAX_TOKENS (config self)
       end;
     temperature :=
       match temperature with
       | Some v => v
       | None => TEMPERATURE (config self)
       end;
     top_p :=
       match top_p with
       | Some v => v
       | None => TOP_P (config self)
       end |}.

(** [self.config.get("ENABLE_COST_TRACKING", False)] *)
Definition cost_tracking_enabled (self : GeminiService) : bool :=
  match ENABLE_COST_TRACKING (config self) with
  | Some b => b
  | None => false
  end.

Section Adapter.

Variable py_str : pyval -> string.

Definition chat_completion (self : GeminiService) (messages : pyval) (n : Z)
    (temperature : option float) (max_tokens : option Z) (top_p : option float)
    (kwargs : list (string * pyval)) : M (list (option string) * float) :=
  try_except
    (gemini_messages <- process_messages py_str messages ;;
     let genai_config := generation_config self temperature max_tokens top_p in
     response <- lift (generate_content self gemini_messages genai_config) ;;
     cost <- (if cost_tracking_enabled self
              then estimate_cost self messages response
              else ret 0%float) ;;
     texts <- get_text_from_all_candidates response ;;
     ret (texts, cost))
    (fun e => print (ErrorInChatCompletion e) ;;; raise e).

End Adapter.

(** ** Vocabulary of the statements *)

(** The outcome of [base64_to_blob] on a URL the pattern does not match. *)
Definition invalid_format {A} : M A :=
  ([CouldNotParseDataURL], inl (ValueError "Invalid data URL format.")).

(** A URL of the form [data:<mime-type>;base64,<payload>] whose mime type
    starts with [image/]. *)
Definition data_url_shaped (url : string) : Prop :=
  exists subtype payload,
    url = ("data:image/" ++ subtype ++ ";base64," ++ payload)%string.

(** A subtype as mime types have it: not empty, and free of [;] and of line
    feeds. *)
Definition is_subtype_char (c : ascii) : bool :=
  negb (Ascii.eqb c ";"%char) && negb (is_newline c).

Definition plain_subtype (subtype : string) : bool :=
  negb (String.eqb subtype "") &&
  forallb is_subtype_char (list_ascii_of_string subtype).

Definition no_semicolon (s : string) : bool :=
  forallb (fun c => negb (Ascii.eqb c ";"%char)) (list_ascii_of_string s).

(** A content part [{"type": "text", "text": t}]. *)
Inductive is_text_part : pyval -> string -> Prop :=
| IsTextPart d t :
    lookup "type" d = Some (VStr "text") ->
    lookup "text" d = Some (VStr t) ->
    is_text_part (VDict d) t.

(** A content part [{"type": "image_url", "image_url": {"url": url}}]. *)
Inductive is_image_part : pyval -> pyval -> Prop :=
| IsImagePart d image_url url :
    lookup "type" d = Some (VStr "image_url") ->
    lookup "image_url" d = Some (VDict image_url) ->
    lookup "url" image_url = Some url ->
    is_image_part (VDict d) url.

(** A content part whose type is neither ["text"] nor ["image_url"]. *)
Inductive is_other_part : pyval -> Prop :=
| IsOtherPart d type :
    lookup "type" d = Some type ->
    eq_str type "text" = false ->
    eq_str type "image_url" = false ->
    is_other_part (VDict d).

(** A message whose role is not ["system"], with its list of parts. *)
Inductive is_parts_message : pyval -> list pyval -> Prop :=
| IsPartsMessage d role parts :
    lookup "role" d = Some role ->
    eq_str role "system" = false ->
    lookup "content" d = Some (VList parts) ->
    is_parts_message (VDict d) parts.

(** A message of a conversation that holds text only: a system message
    with its string, or a message of another role with the texts of its
    parts. *)
Inductive text_message : Type :=
| SystemText (x : string)
| PartsText (texts : list string).

Inductive is_text_message : pyval -> text_message -> Prop :=
| IsSystemText d x :
    lookup "role" d = Some (VStr "system") ->
    lookup "content" d = Some (VStr x) ->
    is_text_message (VDict d) (SystemText x)
| IsPartsText message parts texts :
    is_parts_message message parts ->
    Forall2 is_text_part parts texts ->
    is_text_message message (PartsText texts).

(** What a text-only message contributes to the prompt. *)
Definition flattened (m : text_message) : list pyval :=
  match m with
  | SystemText x => [VStr ("Your general instruction: " ++ x)%string]
  | PartsText texts => map VStr texts
  end.

(** An instance, the only kind of value with a [__dict__]. *)
Definition is_instance (v : pyval) : bool :=
  match v with
  | VObj _ _ _ => true
  | _ => false
  end.

(** A candidate that is true and has the nested structure
    [candidate.content.parts], the parts being a list of instances. *)
Definition is_candidate (candidate : pyval) (parts : list pyval) : Prop :=
  exists content,
    truthy candidate = true /\
    attr candidate "content" = Some content /\
    attr content "parts" = Some (VList parts) /\
    forallb is_instance parts = true.

(** A candidate whose [content.parts], if it has one, is a list of
    instances. *)
Definition sequences_where_present (candidate : pyval) : Prop :=
  forall content parts,
    attr candidate "content" = Some content ->
    attr content "parts" = Some parts ->
    exists items, parts = VList items /\ forallb is_instance items = true.

(** A part flagged as a thought. *)
Definition flagged_thought (part : pyval) : bool :=
  match attr part "thought" with
  | Some thought => truthy thought
  | None => false
  end.

(** The text of a part that counts: a string, on a part not flagged as a
    thought. *)
Definition qualifying_text (part : pyval) : option string :=
  match attr part "text" with
  | Some (VStr text) => if flagged_thought part then None else Some text
  | _ => None
  end.

Fixpoint qualifying_texts (parts : list pyval) : list string :=
  match parts with
  | [] => []
  | part :: rest =>
      match qualifying_text part with
      | Some text => text :: qualifying_texts rest
      | None => qualifying_texts rest
      end
  end.

(** What the extractor is to emit for a candidate with these parts. *)
Definition candidate_result (parts : list pyval) : option string :=
  match qualifying_texts parts with
  | [] => None
  | texts => Some (fold_right String.append "" texts)
  end.

(** A check of all the numbers below [n], by enumeration. *)
Definition all_below (n : nat) (P : N -> bool) : bool :=
  forallb (fun k => P (N.of_nat k)) (seq 0 n).

(** What the decoder needs of the sextets, one byte and two bytes at a
    time: they are below 64, and the shifts of the decoder give the bytes
    back. *)
Definition byte_facts (a : N) : bool :=
  ((sextet0 a <? 64) && (sextet3 a <? 64) &&
   (N.lor (N.shiftl (N.shiftr a 6) 6) (sextet3 a) =? a))%N.

Definition byte_pair_facts (a b : N) : bool :=
  ((sextet1 a b <? 64) && (sextet2 a b <? 64) &&
   (N.lor (N.shiftl (sextet0 a) 2) (N.shiftr (sextet1 a b) 4) =? a) &&
   (N.land (sextet1 a b) 15 =? N.shiftr b 4) &&
   (N.lor (N.shiftl (N.shiftr a 4) 4) (N.shiftr (sextet2 a b) 2) =? a) &&
   (N.land (sextet2 a b) 3 =? N.shiftr b 6))%N.

(** A message whose content is a string. *)
Definition has_string_content (msg : pyval) (content : string) : Prop :=
  exists d, msg = VDict d /\ lookup "content" d = Some (VStr content).

(** The words of a list of strings, counted together. *)
Definition word_total (contents : list string) : Z :=
  fold_left (fun total c => (total + Z.of_nat (count_words c))%Z) contents 0%Z.

(** ** Builders for concrete requests and responses *)

(** [{"type": "text", "text": t}] *)
Definition text_part (t : string) : pyval :=
  VDict [("type", VStr "text"); ("text", VStr t)].

(** [{"type": "image_url", "image_url": {"url": url}}] *)
Definition image_part (url : string) : pyval :=
  VDict [("type", VStr "image_url"); ("image_url", VDict [("url", VStr url)])].

(** [{"role": role, "content": content}] *)
Definition message (role : string) (content : pyval) : pyval :=
  VDict [("role", VStr role); ("content", content)].

(** A response part holding a text, and one flagged as a thought. *)
Definition text_of_model (t : string) : pyval := instance [("text", VStr t)].
Definition thought_of_model (t : string) : pyval :=
  instance [("text", VStr t); ("thought", VBool true)].

(** A candidate with its parts, and a response with its quick accessor
    [text] and its candidates. *)
Definition candidate (parts : list pyval) : pyval :=
  instance [("content", instance [("parts", VList parts)])].
Definition response_of (text : string) (candidates : list pyval) : pyval :=
  instance [("candidates", VList candidates); ("text", VStr text)].

(** A service for the model ["gemini-pro"], priced at 0.01 a word in and
    0.02 a word out, whose provider always answers [response]. *)
Definition service (tracking : option bool) (response : pyval) : GeminiService :=
  {| config :=
       {| MAX_TOKENS := 2000;
          TEMPERATURE := 0%float;
          TOP_P := 1%float;
          ENABLE_COST_TRACKING := tracking;
          MODEL_COSTS :=
            Some [("gemini-pro",
                   {| input_cost := Some 0.01%float;
                      output_cost := Some 0.02%float |})] |};
     model_name := "gemini-pro";
     generate_content := fun _ _ => inr response |}.

(** A stand-in for [str] on values that are not strings. *)
Definition opaque_str (v : pyval) : string := "<object>".

(** ** Vocabulary of the further properties *)

(** A content part as the translator treats it: a text, an image given by a
    data URL that decodes, or a part of another type. *)
Inductive part_view : Type :=
| TextView (t : string)
| ImageView (subtype : string) (bs : list byte)
| OtherView.

Inductive is_part : pyval -> part_view -> Prop :=
| IsTextView part t :
    is_text_part part t -> is_part part (TextView t)
| IsImageView part subtype bs :
    is_image_part part (VStr (data_url ("image/" ++ subtype) bs)) ->
    bs <> [] ->
    plain_subtype subtype = true ->
    is_part part (ImageView subtype bs)
| IsOtherView part :
    is_other_part part -> is_part part OtherView.

(** What a part contributes to the prompt. *)
Definition part_prompts (v : part_view) : list pyval :=
  match v with
  | TextView t => [VStr t]
  | ImageView subtype bs =>
      [VDict [("mime_type", VStr ("image/" ++ subtype)%string);
              ("data", VBytes bs)]]
  | OtherView => []
  end.

(** A message of a conversation with texts and images. *)
Inductive message_view : Type :=
| SystemView (x : string)
| PartsView (parts : list part_view).

Inductive is_message : pyval -> message_view -> Prop :=
| IsSystemView d x :
    lookup "role" d = Some (VStr "system") ->
    lookup "content" d = Some (VStr x) ->
    is_message (VDict d) (SystemView x)
| IsPartsView message parts views :
    is_parts_message message parts ->
    Forall2 is_part parts views ->
    is_message message (PartsView views).

Definition message_prompts (m : message_view) : list pyval :=
  match m with
  | SystemView x => [VStr ("Your general instruction: " ++ x)%string]
  | PartsView views => flat_map part_prompts views
  end.

(** The line that [chat_completion] prints for an exception. *)
Definition is_error_report (ev : event) : bool :=
  match ev with
  | ErrorInChatCompletion _ => true
  | _ => false
  end.

(** The characters of a payload: a symbol of the alphabet counts, the pad
    is special, and any other character is skipped by the decoder. *)
Definition is_pad (c : ascii) : bool := Ascii.eqb c BASE64_PAD.
Definition is_symbol (c : ascii) : bool :=
  negb (is_pad c) && (table_a2b_base64 c <? 64)%N.
Definition is_skipped (c : ascii) : bool :=
  negb (is_pad c) && (64 <=? table_a2b_base64 c)%N.

Definition symbol_count (s : string) : nat :=
  List.length (filter is_symbol (list_ascii_of_string s)).

Definition no_pad (s : string) : bool :=
  forallb (fun c => negb (is_pad c)) (list_ascii_of_string s).

Definition no_newline (s : string) : bool :=
  forallb (fun c => negb (is_newline c)) (list_ascii_of_string s).

Definition all_ascii (s : string) : bool :=
  forallb is_ascii (list_ascii_of_string s).

(** The [__dict__] of a part, and the entries that the check for non-text
    parts reports: a value other than [None] under a name other than
    [text] and [thought]. *)
Definition part_fields (part : pyval) : list (string * pyval) :=
  match part with
  | VObj _ fields _ => fields
  | _ => []
  end.

Definition reportable (field : string * pyval) : bool :=
  negb (is_none (snd field)) &&
  negb (existsb (String.eqb (fst field)) ["text"; "thought"]).

(** The names collected over the parts of a candidate. *)
Definition non_text_fields (parts : list pyval) : list string :=
  fold_left (fun found part => scan_fields (part_fields part) found) parts [].

(** [candidate.content.parts], when it is a list. *)
Definition candidate_parts (candidate : pyval) : list pyval :=
  match attr candidate "content" with
  | Some content =>
      match attr content "parts" with
      | Some (VList parts) => parts
      | _ => []
      end
  | None => []
  end.

(** The warning, if any, that the candidate of index [i] gives rise to. *)
Definition expected_warnings (indexed : nat * pyval) : list event :=
  let (i, candidate) := indexed in
  if has_parts candidate then
    match non_text_fields (candidate_parts candidate) with
    | [] => []
    | names => [WarnNonTextParts i names]
    end
  else [WarnCandidateNoContent i].

(** A message that both the translator and the word count accept: a
    dictionary whose content is a [str] or [bytes], empty unless the role is
    ["system"]. *)
Definition cost_countable (msg : pyval) : Prop :=
  exists d role content,
    msg = VDict d /\
    lookup "role" d = Some role /\
    lookup "content" d = Some content /\
    ((exists s, content = VStr s) \/ (exists bs, content = VBytes bs)) /\
    (eq_str role "system" = false ->
     content = VStr "" \/ content = VBytes []).

(** A computation that has printed nothing and does not raise the
    invalid-format error, or that is exactly the invalid-format outcome. *)
Definition quiet {A} (m : M A) : Prop :=
  fst m = [] /\ ~ raises m (ValueError "Invalid data URL format.").

Definition quiet_or_invalid_format {A} (m : M A) : Prop :=
  quiet m \/ m = invalid_format.

(** Output that holds no report of [chat_completion]. *)
Definition no_error_report (out : list event) : bool :=
  forallb (fun ev => negb (is_error_report ev)) out.

(** A system message [{"role": "system", "content": c}] with a string. *)
Definition is_system_message (msg : pyval) (c : string) : Prop :=
  exists d,
    msg = VDict d /\
    lookup "role" d = Some (VStr "system") /\
    lookup "content" d = Some (VStr c).

(** The results of a first and of a second run put together, the
    exception of the first hiding the second. *)
Definition both_results {A} (r1 r2 : exn + list A) : exn + list A :=
  match r1 with
  | inl e => inl e
  | inr t1 =>
      match r2 with
      | inl e => inl e
      | inr t2 => inr (t1 ++ t2)
      end
  end.

(** * Properties *)

(** ** Computations *)

Lemma bind_ret {A B} (a : A) (k : A -> M B) : bind (ret a) k = k a.
Proof. unfold bind, ret. destruct (k a). reflexivity. Qed.

Lemma bind_raise {A B} (e : exn) (k : A -> M B) : bind (raise e) k = raise e.
Proof. reflexivity. Qed.

Lemma bind_fails {A B} (m : M A) (k : A -> M B) : fails m -> fails (bind m k).
Proof.
  destruct m as [out [e | a]]; intros [e' H]; simpl in H; [| discriminate].
  exists e. reflexivity.
Qed.

Lemma bind_returns_inv {A B} (m : M A) (k : A -> M B) (b : B) :
  returns (bind m k) b -> exists a, returns m a /\ returns (k a) b.
Proof.
  destruct m as [out [e | a]]; unfold returns; simpl; [discriminate |].
  destruct (k a) as [out' r] eqn:E. simpl. intros ->.
  exists a. rewrite E. split; reflexivity.
Qed.

Lemma fails_not_returns {A} (m : M A) (a : A) : fails m -> ~ returns m a.
Proof. intros [e H] R. unfold returns in R. congruence. Qed.

Lemma bind_assoc {A B C} (m : M A) (f : A -> M B) (g : B -> M C) :
  bind (bind m f) g = bind m (fun a => bind (f a) g).
Proof.
  destruct m as [out [e | a]]; simpl; [reflexivity |].
  destruct (f a) as [out' [e | b]]; simpl; [reflexivity |].
  destruct (g b) as [out'' r]. rewrite app_assoc. reflexivity.
Qed.

Lemma bind_ext {A B} (m : M A) (f g : A -> M B) :
  (forall a, f a = g a) -> bind m f = bind m g.
Proof. intro H. destruct m as [out [e | a]]; simpl; [| rewrite H]; reflexivity. Qed.

Lemma bind_all_fail {A B} (m : M A) (k : A -> M B) :
  (forall a, fails (k a)) -> fails (bind m k).
Proof.
  intro H. destruct m as [out [e | a]]; simpl.
  - exists e. reflexivity.
  - destruct (H a) as [e He]. destruct (k a) as [out' r]. simpl in He.
    exists e. exact He.
Qed.

Lemma bind_returns_raises {A B} (m : M A) (k : A -> M B) (a : A) (e : exn) :
  returns m a -> raises (k a) e -> raises (bind m k) e.
Proof.
  destruct m as [out r]. unfold returns, raises. simpl. intros -> H.
  simpl. destruct (k a) as [out' r']. exact H.
Qed.

Lemma bind_raises {A B} (m : M A) (k : A -> M B) (e : exn) :
  raises m e -> raises (bind m k) e.
Proof.
  destruct m as [out r]. unfold raises. simpl. intros ->. reflexivity.
Qed.

Lemma bind_returns {A B} (m : M A) (k : A -> M B) (a : A) (b : B) :
  returns m a -> returns (k a) b -> returns (bind m k) b.
Proof.
  destruct m as [out r]. unfold returns. simpl. intros -> H.
  simpl. destruct (k a) as [out' r']. exact H.
Qed.

Lemma bind_step {A B} (out : list event) (a : A) (k : A -> M B) :
  bind (out, inr a) k = (out ++ fst (k a), snd (k a)).
Proof. simpl. destruct (k a). reflexivity. Qed.

Lemma try_except_raises {A} (m : M A) (h : exn -> M A) (e : exn) :
  raises m e -> raises (h e) e -> raises (try_except m h) e.
Proof.
  destruct m as [out r]. unfold raises. simpl. intros -> H.
  simpl. destruct (h e) as [out' r']. exact H.
Qed.

Lemma try_except_fails {A} (m : M A) (h : exn -> M A) :
  fails m -> (forall e, fails (h e)) -> fails (try_except m h).
Proof.
  destruct m as [out [e | a]]; intros [e' H] Hh; simpl in H; [| discriminate].
  simpl. destruct (Hh e) as [e'' He]. destruct (h e) as [out' r'].
  exists e''. exact He.
Qed.

Lemma try_except_returns {A} (m : M A) (h : exn -> M A) (a : A) :
  (forall e, fails (h e)) ->
  (returns (try_except m h) a <-> returns m a).
Proof.
  intro Hh. destruct m as [out [e | a']]; unfold returns; simpl; [| tauto].
  destruct (Hh e) as [e' He]. destruct (h e) as [out' r']. simpl in *.
  split; congruence.
Qed.

Lemma reraise_fails {A} (e : exn) :
  fails (print (ErrorInChatCompletion e) ;;; @raise A e).
Proof. exists e. reflexivity. Qed.

Lemma for_each_app {A S} (xs ys : list A) (body : A -> S -> M S) (st : S) :
  for_each (xs ++ ys) body st = bind (for_each xs body st) (for_each ys body).
Proof.
  revert st. induction xs as [| x xs IH]; intro st; cbn [app for_each].
  - rewrite bind_ret. reflexivity.
  - rewrite bind_assoc. apply bind_ext. exact IH.
Qed.

(** An item on which the body always fails makes the loop fail. *)
Lemma for_each_fails_at {A S} (xs ys : list A) (x : A) (body : A -> S -> M S) :
  (forall st, fails (body x st)) ->
  forall st, fails (for_each (xs ++ x :: ys) body st).
Proof.
  intros H st. rewrite for_each_app. apply bind_all_fail.
  intro st'. cbn [for_each]. apply bind_fails. apply H.
Qed.

(** ** Enumeration *)

(** Splits a conjunction of boolean tests into the facts it states. *)
Ltac bool_facts H :=
  repeat (apply andb_prop in H; destruct H as [H ?]);
  repeat match goal with
         | X : (_ <? _)%N = true |- _ => apply N.ltb_lt in X
         | X : (_ =? _)%N = true |- _ => apply N.eqb_eq in X
         | X : negb _ = true |- _ => apply negb_true_iff in X
         end.

Lemma all_below_spec (n : nat) (P : N -> bool) :
  all_below n P = true -> forall v, (v < N.of_nat n)%N -> P v = true.
Proof.
  unfold all_below. intros H v Hv.
  rewrite forallb_forall in H.
  specialize (H (N.to_nat v)). rewrite N2Nat.id in H.
  apply H. apply in_seq. lia.
Qed.

(** ** Base64 *)

Lemma alphabet_decodes (v : N) :
  (v < 64)%N ->
  table_a2b_base64 (b2a v) = v /\
  Ascii.eqb (b2a v) BASE64_PAD = false /\
  is_ascii (b2a v) = true /\
  is_newline (b2a v) = false.
Proof.
  intro Hv.
  assert (H : all_below 64 (fun v =>
            (table_a2b_base64 (b2a v) =? v)%N
            && negb (Ascii.eqb (b2a v) BASE64_PAD)
            && is_ascii (b2a v) && negb (is_newline (b2a v))) = true)
    by (vm_compute; reflexivity).
  apply all_below_spec with (v := v) in H; [| exact Hv].
  bool_facts H. auto.
Qed.

Lemma byte_facts_hold (a : N) : (a < 256)%N -> byte_facts a = true.
Proof.
  apply (all_below_spec 256 byte_facts). vm_compute. reflexivity.
Qed.

Lemma byte_pair_facts_hold (a b : N) :
  (a < 256)%N -> (b < 256)%N -> byte_pair_facts a b = true.
Proof.
  intros Ha Hb.
  assert (H : all_below 256 (fun a => all_below 256 (byte_pair_facts a)) = true)
    by (vm_compute; reflexivity).
  apply all_below_spec with (v := a) in H; [| exact Ha].
  apply all_below_spec with (v := b) in H; [| exact Hb].
  exact H.
Qed.

Lemma to_N_below (x : byte) : (Byte.to_N x < 256)%N.
Proof. pose proof (Byte.to_N_bounded x). lia. Qed.

Lemma u8_to_N (x : byte) : u8 (Byte.to_N x) = x.
Proof.
  unfold u8. rewrite N.mod_small by apply to_N_below.
  rewrite Byte.of_to_N. reflexivity.
Qed.

Lemma a2b_loop_symbol (v : N) (rest : list ascii) (quad_pos : nat)
    (leftchar : N) (pads : nat) (bin_data : list byte) :
  (v < 64)%N ->
  a2b_loop (b2a v :: rest) quad_pos leftchar pads bin_data =
  match quad_pos with
  | 0 => a2b_loop rest 1 v 0 bin_data
  | 1 => a2b_loop rest 2 (N.land v 15) 0
           (bin_data ++ [u8 (N.lor (N.shiftl leftchar 2) (N.shiftr v 4))])
  | 2 => a2b_loop rest 3 (N.land v 3) 0
           (bin_data ++ [u8 (N.lor (N.shiftl leftchar 4) (N.shiftr v 2))])
  | _ => a2b_loop rest 0 0%N 0
           (bin_data ++ [u8 (N.lor (N.shiftl leftchar 6) v)])
  end.
Proof.
  intro Hv. destruct (alphabet_decodes v Hv) as (Htable & Hpad & _).
  cbn [a2b_loop]. rewrite Hpad, Htable.
  replace (64 <=? v)%N with false by (symmetry; apply N.leb_gt; exact Hv).
  reflexivity.
Qed.

(** Two symbols give the first byte back and leave the high bits of the
    second. *)
Lemma a2b_loop_first_byte (a : byte) (b : N) (rest : list ascii)
    (leftchar : N) (pads : nat) (bin_data : list byte) :
  (b < 256)%N ->
  a2b_loop (b2a (sextet0 (Byte.to_N a)) :: b2a (sextet1 (Byte.to_N a) b) :: rest)
    0 leftchar pads bin_data =
  a2b_loop rest 2 (N.shiftr b 4) 0 (bin_data ++ [a]).
Proof.
  intro Hb.
  pose proof (byte_facts_hold _ (to_N_below a)) as Fa.
  pose proof (byte_pair_facts_hold _ _ (to_N_below a) Hb) as Fab.
  unfold byte_facts in Fa. unfold byte_pair_facts in Fab.
  bool_facts Fa. bool_facts Fab.
  rewrite a2b_loop_symbol by assumption.
  rewrite a2b_loop_symbol by assumption.
  match goal with X : N.lor (N.shiftl (sextet0 _) 2) _ = _ |- _ => rewrite X end.
  match goal with X : N.land (sextet1 _ _) 15 = _ |- _ => rewrite X end.
  rewrite u8_to_N. reflexivity.
Qed.

(** The third symbol gives the second byte back and leaves the high bits of
    the third. *)
Lemma a2b_loop_second_byte (b : byte) (c : N) (rest : list ascii)
    (bin_data : list byte) :
  (c < 256)%N ->
  a2b_loop (b2a (sextet2 (Byte.to_N b) c) :: rest)
    2 (N.shiftr (Byte.to_N b) 4) 0 bin_data =
  a2b_loop rest 3 (N.shiftr c 6) 0 (bin_data ++ [b]).
Proof.
  intro Hc.
  pose proof (byte_pair_facts_hold _ _ (to_N_below b) Hc) as Fbc.
  unfold byte_pair_facts in Fbc.
  bool_facts Fbc.
  rewrite a2b_loop_symbol by assumption.
  match goal with X : N.lor (N.shiftl (N.shiftr _ 4) 4) _ = _ |- _ => rewrite X end.
  match goal with X : N.land (sextet2 _ _) 3 = _ |- _ => rewrite X end.
  rewrite u8_to_N. reflexivity.
Qed.

(** The fourth symbol gives the third byte back and closes the quad. *)
Lemma a2b_loop_third_byte (c : byte) (rest : list ascii) (bin_data : list byte) :
  a2b_loop (b2a (sextet3 (Byte.to_N c)) :: rest)
    3 (N.shiftr (Byte.to_N c) 6) 0 bin_data =
  a2b_loop rest 0 0%N 0 (bin_data ++ [c]).
Proof.
  pose proof (byte_facts_hold _ (to_N_below c)) as Fc.
  unfold byte_facts in Fc.
  bool_facts Fc.
  rewrite a2b_loop_symbol by assumption.
  match goal with X : N.lor _ (sextet3 _) = _ |- _ => rewrite X end.
  rewrite u8_to_N. reflexivity.
Qed.

Lemma list_ind3 {A} (P : list A -> Prop) :
  P [] -> (forall a, P [a]) -> (forall a b, P [a; b]) ->
  (forall a b c l, P l -> P (a :: b :: c :: l)) ->
  forall l, P l.
Proof.
  intros H0 H1 H2 H3 l.
  enough (H : P l /\ (forall a, P (a :: l)) /\ (forall a b, P (a :: b :: l)))
    by apply H.
  induction l as [| x l (IH0 & IH1 & IH2)].
  - auto.
  - repeat split; auto.
Qed.

(** Decoding what the encoder wrote appends the bytes it read, whatever is
    left in [leftchar] and [pads] from before. *)
Lemma a2b_loop_b64encode (bs : list byte) :
  forall (leftchar : N) (pads : nat) (bin_data : list byte),
    a2b_loop (b64encode_chars bs) 0 leftchar pads bin_data = inr (bin_data ++ bs).
Proof.
  induction bs as [| a | a b | a b c bs IH] using list_ind3;
    intros leftchar pads bin_data.
  - simpl. rewrite app_nil_r. reflexivity.
  - cbn [b64encode_chars].
    rewrite a2b_loop_first_byte by reflexivity. reflexivity.
  - cbn [b64encode_chars].
    rewrite a2b_loop_first_byte by apply to_N_below.
    rewrite a2b_loop_second_byte by reflexivity.
    cbn. rewrite <- app_assoc. reflexivity.
  - cbn [b64encode_chars].
    rewrite a2b_loop_first_byte by apply to_N_below.
    rewrite a2b_loop_second_byte by apply to_N_below.
    rewrite a2b_loop_third_byte. rewrite IH.
    rewrite <- !app_assoc. reflexivity.
Qed.

Lemma b64encode_chars_plain (bs : list byte) :
  forallb is_ascii (b64encode_chars bs) = true /\
  forallb (fun c => negb (is_newline c)) (b64encode_chars bs) = true.
Proof.
  assert (Hsym : forall v, (v < 64)%N ->
                   is_ascii (b2a v) = true /\ negb (is_newline (b2a v)) = true).
  { intros v Hv. destruct (alphabet_decodes v Hv) as (_ & _ & Ha & Hn).
    rewrite Ha, Hn. auto. }
  assert (S0 : forall x : byte, (sextet0 (Byte.to_N x) < 64)%N /\
                                (sextet3 (Byte.to_N x) < 64)%N).
  { intro x. pose proof (byte_facts_hold _ (to_N_below x)) as F.
    unfold byte_facts in F.
    bool_facts F. split; assumption. }
  assert (S1 : forall (x : byte) (y : N), (y < 256)%N ->
                 (sextet1 (Byte.to_N x) y < 64)%N /\ (sextet2 (Byte.to_N x) y < 64)%N).
  { intros x y Hy. pose proof (byte_pair_facts_hold _ _ (to_N_below x) Hy) as F.
    unfold byte_pair_facts in F.
    bool_facts F. split; assumption. }
  induction bs as [| a | a b | a b c bs [IHa IHn]] using list_ind3.
  - split; reflexivity.
  - cbn [b64encode_chars forallb].
    destruct (Hsym _ (proj1 (S0 a))) as [-> ->].
    destruct (Hsym _ (proj1 (S1 a 0%N eq_refl))) as [-> ->].
    split; reflexivity.
  - cbn [b64encode_chars forallb].
    destruct (Hsym _ (proj1 (S0 a))) as [-> ->].
    destruct (Hsym _ (proj1 (S1 a _ (to_N_below b)))) as [-> ->].
    destruct (Hsym _ (proj2 (S1 b 0%N eq_refl))) as [-> ->].
    split; reflexivity.
  - cbn [b64encode_chars forallb].
    destruct (Hsym _ (proj1 (S0 a))) as [-> ->].
    destruct (Hsym _ (proj1 (S1 a _ (to_N_below b)))) as [-> ->].
    destruct (Hsym _ (proj2 (S1 b _ (to_N_below c)))) as [-> ->].
    destruct (Hsym _ (proj2 (S0 c))) as [-> ->].
    rewrite IHa, IHn. split; reflexivity.
Qed.

(** [b64decode] undoes [b64encode]. *)
Lemma b64decode_b64encode (bs : list byte) : b64decode (b64encode bs) = ret bs.
Proof.
  unfold b64decode, b64encode, a2b_base64.
  rewrite list_ascii_of_string_of_list_ascii.
  rewrite (proj1 (b64encode_chars_plain bs)).
  rewrite a2b_loop_b64encode. reflexivity.
Qed.

(** ** The data-URL pattern *)

Lemma append_assoc (a b c : string) : ((a ++ b) ++ c = a ++ (b ++ c))%string.
Proof. induction a as [| x a IH]; simpl; [| rewrite IH]; reflexivity. Qed.

Lemma append_nil_r (a : string) : (a ++ "")%string = a.
Proof. induction a as [| x a IH]; simpl; [| rewrite IH]; reflexivity. Qed.

Lemma strip_prefix_app (p s : string) : strip_prefix p (p ++ s) = Some s.
Proof.
  induction p as [| a p IH]; simpl; [reflexivity |].
  rewrite Ascii.eqb_refl. exact IH.
Qed.

Lemma strip_prefix_inv (p s r : string) :
  strip_prefix p s = Some r -> s = (p ++ r)%string.
Proof.
  revert s. induction p as [| a p IH]; intros s H; simpl in H.
  - injection H as ->. reflexivity.
  - destruct s as [| b s]; [discriminate |].
    destruct (Ascii.eqb a b) eqn:E; [| discriminate].
    apply Ascii.eqb_eq in E. subst b. simpl. f_equal. apply IH. exact H.
Qed.

Lemma dot_star_plain (s : string) :
  forallb (fun c => negb (is_newline c)) (list_ascii_of_string s) = true ->
  dot_star s = s.
Proof.
  induction s as [| c s IH]; simpl; [reflexivity |].
  intro H. apply andb_prop in H. destruct H as [Hc Hs].
  apply negb_true_iff in Hc. rewrite Hc, (IH Hs). reflexivity.
Qed.

Lemma dot_star_prefix (s : string) : exists rest, s = (dot_star s ++ rest)%string.
Proof.
  induction s as [| c s [rest IH]]; simpl.
  - exists "". reflexivity.
  - destruct (is_newline c).
    + exists (String c s). reflexivity.
    + exists rest. simpl. rewrite <- IH. reflexivity.
Qed.

Lemma dot_plus_inv (s m : string) :
  dot_plus s = Some m -> m <> "" /\ exists rest, s = (m ++ rest)%string.
Proof.
  unfold dot_plus. intro H.
  assert (m = dot_star s) as -> by (destruct (dot_star s); congruence).
  split.
  - destruct (dot_star s); congruence.
  - apply dot_star_prefix.
Qed.

(** A match of the rest of the pattern takes [";base64,"] and a payload
    that is not empty. *)
Lemma after_mime_inv (subtype s m b : string) :
  after_mime subtype s = Some (m, b) ->
  m = ("image/" ++ subtype)%string /\ b <> "" /\
  exists rest, s = (";base64," ++ b ++ rest)%string.
Proof.
  unfold after_mime. intro H.
  destruct (strip_prefix ";base64," s) as [payload |] eqn:Ep; [| discriminate].
  destruct (dot_plus payload) as [b' |] eqn:Ed; [| discriminate].
  injection H as <- <-.
  apply strip_prefix_inv in Ep. apply dot_plus_inv in Ed.
  destruct Ed as [Hne [rest ->]].
  repeat split; [exact Hne |]. exists rest. exact Ep.
Qed.

(** A match of the lazy quantifier takes at least one character. *)
Lemma dot_plus_lazy_inv (s : string) :
  forall taken m b,
    dot_plus_lazy after_mime taken s = Some (m, b) ->
    exists more rest,
      more <> "" /\ b <> "" /\
      m = ("image/" ++ taken ++ more)%string /\
      s = (more ++ ";base64," ++ b ++ rest)%string.
Proof.
  induction s as [| c s IH]; intros taken m b H; simpl in H; [discriminate |].
  destruct (is_newline c); [discriminate |].
  destruct (after_mime (taken ++ String c "") s) as [[m' b'] |] eqn:Ek.
  - injection H as -> ->.
    apply after_mime_inv in Ek. destruct Ek as (-> & Hb & rest & ->).
    exists (String c ""), rest. repeat split; [discriminate | exact Hb].
  - apply IH in H. destruct H as (more & rest & _ & Hb & -> & ->).
    exists (String c more), rest.
    repeat split; [discriminate | exact Hb |].
    rewrite append_assoc. reflexivity.
Qed.

Lemma match_data_url_inv (url m b : string) :
  match_data_url url = Some (m, b) ->
  exists subtype rest,
    subtype <> "" /\ b <> "" /\
    m = ("image/" ++ subtype)%string /\
    url = ("data:image/" ++ subtype ++ ";base64," ++ b ++ rest)%string.
Proof.
  unfold match_data_url. intro H.
  destruct (strip_prefix "data:image/" url) as [s |] eqn:Ep; [| discriminate].
  apply strip_prefix_inv in Ep.
  apply dot_plus_lazy_inv in H. destruct H as (more & rest & Hm & Hb & -> & ->).
  exists more, rest. repeat split; assumption.
Qed.

(** A URL that is not of the shape is not matched. *)
Lemma match_data_url_shape (url : string) :
  ~ data_url_shaped url -> match_data_url url = None.
Proof.
  intro Hn. destruct (match_data_url url) as [[m b] |] eqn:E; [| reflexivity].
  exfalso. apply Hn. apply match_data_url_inv in E.
  destruct E as (subtype & rest & _ & _ & _ & ->).
  exists subtype, (b ++ rest)%string. reflexivity.
Qed.

(** Without a [;] ahead, neither the rest of the pattern nor the lazy
    quantifier finds a match. *)
Lemma after_mime_no_semicolon (s : string) :
  no_semicolon s = true -> forall taken, after_mime taken s = None.
Proof.
  unfold no_semicolon, after_mime. intros H taken.
  destruct s as [| c s]; [reflexivity |].
  simpl in H. apply andb_prop in H. destruct H as [Hc _].
  apply negb_true_iff in Hc. rewrite Ascii.eqb_sym in Hc.
  cbn [strip_prefix]. rewrite Hc. reflexivity.
Qed.

Lemma dot_plus_lazy_no_semicolon (s : string) :
  no_semicolon s = true -> forall taken, dot_plus_lazy after_mime taken s = None.
Proof.
  induction s as [| c s IH]; intros H taken; [reflexivity |].
  assert (Hs : no_semicolon s = true).
  { unfold no_semicolon in *. simpl in H. apply andb_prop in H. apply H. }
  simpl. destruct (is_newline c); [reflexivity |].
  rewrite (after_mime_no_semicolon s Hs). apply IH. exact Hs.
Qed.

(** The lazy quantifier stops at the end of a plain subtype. *)
Lemma dot_plus_lazy_plain (subtype b : string) :
  subtype <> "" ->
  forallb is_subtype_char (list_ascii_of_string subtype) = true ->
  dot_plus b = Some b ->
  forall taken,
    dot_plus_lazy after_mime taken (subtype ++ ";base64," ++ b) =
    Some (("image/" ++ taken ++ subtype)%string, b).
Proof.
  intros Hne Hplain Hb.
  induction subtype as [| c s IH]; intro taken; [congruence |].
  simpl in Hplain. apply andb_prop in Hplain. destruct Hplain as [Hc Hs].
  unfold is_subtype_char in Hc. apply andb_prop in Hc. destruct Hc as [_ Hnl].
  apply negb_true_iff in Hnl.
  set (tail := (";base64," ++ b)%string) in *.
  change (String c s ++ tail)%string with (String c (s ++ tail)).
  cbn [dot_plus_lazy]. rewrite Hnl.
  destruct s as [| c' s'].
  - change ("" ++ tail)%string with tail. subst tail.
    unfold after_mime. rewrite strip_prefix_app, Hb. reflexivity.
  - assert (Hc' : Ascii.eqb ";"%char c' = false).
    { simpl in Hs. apply andb_prop in Hs. destruct Hs as [Hc' _].
      unfold is_subtype_char in Hc'. apply andb_prop in Hc'.
      destruct Hc' as [Hc' _]. apply negb_true_iff in Hc'.
      rewrite Ascii.eqb_sym. exact Hc'. }
    replace (after_mime (taken ++ String c "") (String c' s' ++ tail))
      with (@None (string * string))
      by (unfold after_mime; cbn [append strip_prefix]; rewrite Hc'; reflexivity).
    rewrite IH by (congruence || exact Hs).
    rewrite append_assoc. reflexivity.
Qed.

Lemma match_data_url_plain (subtype : string) (bs : list byte) :
  bs <> [] ->
  plain_subtype subtype = true ->
  match_data_url (data_url ("image/" ++ subtype) bs) =
  Some (("image/" ++ subtype)%string, b64encode bs).
Proof.
  intros Hbs Hsub. unfold plain_subtype in Hsub.
  apply andb_prop in Hsub. destruct Hsub as [Hne Hplain].
  apply negb_true_iff in Hne. apply String.eqb_neq in Hne.
  assert (Hb : dot_plus (b64encode bs) = Some (b64encode bs)).
  { unfold dot_plus. rewrite dot_star_plain.
    - unfold b64encode. destruct bs as [| a [| b [| c r]]]; [congruence | | |];
        reflexivity.
    - unfold b64encode. rewrite list_ascii_of_string_of_list_ascii.
      apply b64encode_chars_plain. }
  unfold match_data_url, data_url.
  change (strip_prefix "data:image/"
            ("data:" ++ ("image/" ++ subtype) ++ ";base64," ++ b64encode bs))
    with (Some (subtype ++ ";base64," ++ b64encode bs)%string).
  cbv beta iota.
  rewrite dot_plus_lazy_plain by assumption. reflexivity.
Qed.

(** ** The translator *)

Lemma getitem_found (d : list (string * pyval)) (k : string) (v : pyval) :
  lookup k d = Some v -> getitem (VDict d) k = ret v.
Proof. intro H. simpl. rewrite H. reflexivity. Qed.

Lemma process_part_text (part : pyval) (t : string) (acc : list pyval) :
  is_text_part part t -> process_part part acc = ret (acc ++ [VStr t]).
Proof.
  intros [d t' Htype Htext]. unfold process_part.
  rewrite (getitem_found _ _ _ Htype), bind_ret.
  change (eq_str (VStr "text") "text") with true. cbv iota.
  rewrite (getitem_found _ _ _ Htext), bind_ret. reflexivity.
Qed.

Lemma process_part_other (part : pyval) (acc : list pyval) :
  is_other_part part -> process_part part acc = ret acc.
Proof.
  intros [d type Htype Ht Hi]. unfold process_part.
  rewrite (getitem_found _ _ _ Htype), bind_ret, Ht, Hi. reflexivity.
Qed.

Lemma base64_to_blob_unmatched (url : string) :
  match_data_url url = None -> base64_to_blob (VStr url) = invalid_format.
Proof. intro H. unfold base64_to_blob. rewrite H. reflexivity. Qed.

Lemma process_part_image_unmatched (part : pyval) (url : string)
    (acc : list pyval) :
  is_image_part part (VStr url) ->
  match_data_url url = None ->
  process_part part acc = invalid_format.
Proof.
  intros Hpart Hurl. inversion Hpart as [d image_url u Htype Himage Hu]; subst.
  unfold process_part.
  rewrite (getitem_found _ _ _ Htype), bind_ret.
  change (eq_str (VStr "image_url") "text") with false.
  change (eq_str (VStr "image_url") "image_url") with true. cbv iota.
  rewrite (getitem_found _ _ _ Himage), bind_ret.
  rewrite (getitem_found _ _ _ Hu), bind_ret.
  rewrite (base64_to_blob_unmatched _ Hurl). reflexivity.
Qed.

Lemma for_each_text_parts (parts : list pyval) (texts : list string) :
  Forall2 is_text_part parts texts ->
  forall acc, for_each parts process_part acc = ret (acc ++ map VStr texts).
Proof.
  induction 1 as [| part t parts texts Hpart _ IH]; intro acc;
    cbn [for_each map].
  - rewrite app_nil_r. reflexivity.
  - rewrite (process_part_text _ _ _ Hpart), bind_ret, IH, <- app_assoc.
    reflexivity.
Qed.

Section TranslatorProperties.

Variable py_str : pyval -> string.

Lemma process_message_parts (message : pyval) (parts : list pyval)
    (acc : list pyval) :
  is_parts_message message parts ->
  process_message py_str message acc = for_each parts process_part acc.
Proof.
  intros [d role ps Hrole Hsys Hcontent]. unfold process_message.
  rewrite (getitem_found _ _ _ Hrole), bind_ret, Hsys.
  rewrite (getitem_found _ _ _ Hcontent), bind_ret.
  unfold py_iter. rewrite bind_ret. reflexivity.
Qed.

Lemma process_message_text (message : pyval) (m : text_message)
    (acc : list pyval) :
  is_text_message message m ->
  process_message py_str message acc = ret (acc ++ flattened m).
Proof.
  intros [d x Hrole Hcontent | msg parts texts Hmsg Hparts].
  - unfold process_message.
    rewrite (getitem_found _ _ _ Hrole), bind_ret.
    change (eq_str (VStr "system") "system") with true. cbv iota.
    rewrite (getitem_found _ _ _ Hcontent), bind_ret. reflexivity.
  - rewrite (process_message_parts _ _ _ Hmsg).
    apply for_each_text_parts. exact Hparts.
Qed.

Lemma for_each_text_messages (messages : list pyval)
    (conversation : list text_message) :
  Forall2 is_text_message messages conversation ->
  forall acc,
    for_each messages (process_message py_str) acc =
    ret (acc ++ flat_map flattened conversation).
Proof.
  induction 1 as [| message m messages conversation Hm _ IH]; intro acc;
    cbn [for_each flat_map].
  - rewrite app_nil_r. reflexivity.
  - rewrite (process_message_text _ _ _ Hm), bind_ret, IH, <- app_assoc.
    reflexivity.
Qed.

(** A single bare message is treated as a list of one message. *)
Lemma process_messages_bare_dict (d : list (string * pyval)) :
  process_messages py_str (VDict d) = process_messages py_str (VList [VDict d]).
Proof. reflexivity. Qed.

Lemma process_messages_list (messages : list pyval) :
  process_messages py_str (VList messages) =
  for_each messages (process_message py_str) [].
Proof. unfold process_messages, py_iter. rewrite bind_ret. reflexivity. Qed.

(** C2: on a conversation that holds text only, [process_messages] returns
    the flattening of its messages in order: a system message with string
    [x] gives the one element ["Your general instruction: " ++ x], a message
    of another role gives the texts of its parts in order, and nothing is
    printed. *)
Theorem process_messages_text_only (messages : list pyval)
    (conversation : list text_message) :
  Forall2 is_text_message messages conversation ->
  process_messages py_str (VList messages) =
  ret (flat_map flattened conversation).
Proof.
  intro H. rewrite process_messages_list.
  apply (for_each_text_messages _ _ H []).
Qed.

(** C8: a content part of a message of another role whose type is neither
    ["text"] nor ["image_url"] is skipped: it adds no element and raises
    nothing, and the translation of the parts and of the messages around it
    is the same with it and without it. *)
Theorem process_messages_skips_other_parts (part : pyval) :
  is_other_part part ->
  (forall acc, process_part part acc = ret acc) /\
  (forall before after acc,
     for_each (before ++ part :: after) process_part acc =
     for_each (before ++ after) process_part acc) /\
  (forall message message' before after pre post,
     is_parts_message message (before ++ part :: after) ->
     is_parts_message message' (before ++ after) ->
     process_messages py_str (VList (pre ++ message :: post)) =
     process_messages py_str (VList (pre ++ message' :: post))).
Proof.
  intro Hpart.
  assert (Hskip : forall before after acc,
             for_each (before ++ part :: after) process_part acc =
             for_each (before ++ after) process_part acc).
  { intros before after acc. rewrite !for_each_app. apply bind_ext.
    intro acc'. cbn [for_each]. rewrite (process_part_other _ _ Hpart), bind_ret.
    reflexivity. }
  split; [| split].
  - intro acc. apply process_part_other. exact Hpart.
  - exact Hskip.
  - intros message message' before after pre post Hm Hm'.
    rewrite !process_messages_list, !for_each_app. apply bind_ext.
    intro acc. cbn [for_each].
    rewrite (process_message_parts _ _ _ Hm), (process_message_parts _ _ _ Hm').
    rewrite Hskip. reflexivity.
Qed.

End TranslatorProperties.

(** ** Data URLs *)

(** C3, as amended: a data URL built from a byte sequence that is not empty
    and a mime type [image/<subtype>] with a plain subtype decodes to that
    mime type and those bytes. *)
Theorem base64_to_blob_round_trip (bs : list byte) (subtype : string) :
  bs <> [] ->
  plain_subtype subtype = true ->
  base64_to_blob (VStr (data_url ("image/" ++ subtype) bs)) =
  ret (VDict [("mime_type", VStr ("image/" ++ subtype)); ("data", VBytes bs)]).
Proof.
  intros Hbs Hsub. unfold base64_to_blob.
  rewrite (match_data_url_plain _ _ Hbs Hsub).
  rewrite b64decode_b64encode, bind_ret. reflexivity.
Qed.

(** C10: the data URL with an empty payload is rejected, and so is one
    whose mime type is [image/] alone; no match has an empty subtype or an
    empty payload. *)
Theorem base64_to_blob_needs_subtype_and_payload (payload : string) :
  no_semicolon payload = true ->
  base64_to_blob (VStr "data:image/png;base64,") = invalid_format /\
  base64_to_blob (VStr ("data:image/;base64," ++ payload)) = invalid_format /\
  (forall url mime_type base64_string,
     match_data_url url = Some (mime_type, base64_string) ->
     mime_type <> "image/" /\ base64_string <> "").
Proof.
  intro Hpayload. split; [reflexivity | split].
  - apply base64_to_blob_unmatched.
    unfold match_data_url.
    change (strip_prefix "data:image/" ("data:image/;base64," ++ payload))
      with (Some (";base64," ++ payload)%string).
    cbv beta iota. cbn [append dot_plus_lazy].
    assert (Hk : forall taken, after_mime taken payload = None)
      by (apply after_mime_no_semicolon; exact Hpayload).
    assert (Hl : forall taken, dot_plus_lazy after_mime taken payload = None)
      by (apply dot_plus_lazy_no_semicolon; exact Hpayload).
    repeat match goal with
           | |- context [is_newline ?c] =>
               change (is_newline c) with false; cbv iota
           | |- context [after_mime ?t (String ?c ?s)] =>
               change (after_mime t (String c s)) with (@None (string * string));
               cbv iota
           end.
    rewrite Hk, Hl. reflexivity.
  - intros url mime_type base64_string H.
    apply match_data_url_inv in H.
    destruct H as (subtype & rest & Hs & Hb & -> & _).
    split; [| exact Hb].
    destruct subtype; [congruence | discriminate].
Qed.

(** ** The entry point *)

Section AdapterProperties.

Variable py_str : pyval -> string.

(** What the translator raises, [chat_completion] raises. *)
Lemma chat_completion_translation_raises (self : GeminiService)
    (messages : pyval) (n : Z) (temperature : option float)
    (max_tokens : option Z) (top_p : option float)
    (kwargs : list (string * pyval)) (e : exn) :
  raises (process_messages py_str messages) e ->
  raises (chat_completion py_str self messages n temperature max_tokens top_p
            kwargs) e.
Proof.
  intro H. unfold chat_completion. apply try_except_raises.
  - apply bind_raises. exact H.
  - reflexivity.
Qed.

Lemma chat_completion_translation_fails (self : GeminiService)
    (messages : pyval) (n : Z) (temperature : option float)
    (max_tokens : option Z) (top_p : option float)
    (kwargs : list (string * pyval)) :
  fails (process_messages py_str messages) ->
  fails (chat_completion py_str self messages n temperature max_tokens top_p
           kwargs).
Proof.
  intros [e H]. exists e. apply chat_completion_translation_raises. exact H.
Qed.

(** C4: an [image_url] part whose URL is not of the shape
    [data:image/...;base64,...] makes [base64_to_blob] print that the URL
    could not be parsed and raise [ValueError("Invalid data URL format.")];
    a conversation holding such a part in a message of another role is
    never translated, and [chat_completion] raises too; when what precedes
    the part translates, the exception is this [ValueError]. *)
Theorem malformed_data_url_is_fatal (url : string) :
  ~ data_url_shaped url ->
  base64_to_blob (VStr url) = invalid_format /\
  (forall part acc,
     is_image_part part (VStr url) -> process_part part acc = invalid_format) /\
  (forall part message before after pre post,
     is_image_part part (VStr url) ->
     is_parts_message message (before ++ part :: after) ->
     let messages := VList (pre ++ message :: post) in
     fails (process_messages py_str messages) /\
     (forall self n temperature max_tokens top_p kwargs,
        fails (chat_completion py_str self messages n temperature max_tokens
                 top_p kwargs)) /\
     (forall acc acc',
        returns (for_each pre (process_message py_str) []) acc ->
        returns (for_each before process_part acc) acc' ->
        raises (process_messages py_str messages)
          (ValueError "Invalid data URL format.") /\
        (forall self n temperature max_tokens top_p kwargs,
           raises (chat_completion py_str self messages n temperature
                     max_tokens top_p kwargs)
             (ValueError "Invalid data URL format.")))).
Proof.
  intro Hshape. apply match_data_url_shape in Hshape.
  split; [apply base64_to_blob_unmatched; exact Hshape | split].
  - intros part acc Hpart.
    apply (process_part_image_unmatched _ url); assumption.
  - intros part message before after pre post Hpart Hmsg messages.
    assert (Hbody : forall acc, process_part part acc = invalid_format)
      by (intro acc; apply (process_part_image_unmatched _ url); assumption).
    assert (Hfail : fails (process_messages py_str messages)).
    { unfold messages. rewrite process_messages_list.
      apply for_each_fails_at. intro acc.
      rewrite (process_message_parts _ _ _ _ Hmsg).
      apply for_each_fails_at. intro acc'. rewrite Hbody.
      exists (ValueError "Invalid data URL format."). reflexivity. }
    assert (Hraise : forall acc acc',
               returns (for_each pre (process_message py_str) []) acc ->
               returns (for_each before process_part acc) acc' ->
               raises (process_messages py_str messages)
                 (ValueError "Invalid data URL format.")).
    { intros acc acc' Hpre Hbefore. unfold messages.
      rewrite process_messages_list, for_each_app.
      apply (bind_returns_raises _ _ _ _ Hpre). cbn [for_each].
      apply bind_raises.
      rewrite (process_message_parts _ _ _ _ Hmsg), for_each_app.
      apply (bind_returns_raises _ _ _ _ Hbefore). cbn [for_each].
      apply bind_raises. rewrite Hbody. reflexivity. }
    split; [exact Hfail | split].
    + intros. apply chat_completion_translation_fails. exact Hfail.
    + intros acc acc' Hpre Hbefore. split.
      * apply (Hraise acc acc'); assumption.
      * intros. apply chat_completion_translation_raises.
        apply (Hraise acc acc'); assumption.
Qed.

End AdapterProperties.

(** ** The extractor *)

Lemma getattr_found (v : pyval) (name : string) (x : pyval) :
  attr v name = Some x -> getattr v name = ret x.
Proof. intro H. unfold getattr. rewrite H. reflexivity. Qed.

Lemma scan_part_instance (part : pyval) (st : candidate_state) :
  is_instance part = true ->
  exists found,
    scan_part part st =
    ret {| candidate_text :=
             match qualifying_text part with
             | Some text => (candidate_text st ++ text)%string
             | None => candidate_text st
             end;
           any_text_part_found :=
             match qualifying_text part with
             | Some _ => true
             | None => any_text_part_found st
             end;
           non_text_parts_found := found |}.
Proof.
  intro Hpart. destruct part as [| | | | | | | | truth fields others];
    try discriminate Hpart.
  exists (scan_fields fields (non_text_parts_found st)).
  unfold scan_part, dict_items. rewrite bind_ret.
  unfold qualifying_text, flagged_thought.
  destruct (attr (VObj truth fields others) "text") as [[] |]; try reflexivity.
  destruct (match attr (VObj truth fields others) "thought" with
            | Some thought => truthy thought
            | None => false
            end); reflexivity.
Qed.

(** The loop over the parts accumulates the qualifying texts in order. *)
Lemma scan_parts_instances (parts : list pyval) :
  forallb is_instance parts = true ->
  forall st, exists found,
    for_each parts scan_part st =
    ret {| candidate_text :=
             (candidate_text st ++
                fold_right String.append "" (qualifying_texts parts))%string;
           any_text_part_found :=
             match qualifying_texts parts with
             | [] => any_text_part_found st
             | _ => true
             end;
           non_text_parts_found := found |}.
Proof.
  induction parts as [| part parts IH]; intros Hparts st.
  - exists (non_text_parts_found st). cbn [for_each qualifying_texts fold_right].
    rewrite append_nil_r. destruct st. reflexivity.
  - cbn [forallb] in Hparts. apply andb_prop in Hparts.
    destruct Hparts as [Hpart Hrest].
    cbn [for_each qualifying_texts].
    destruct (scan_part_instance part st Hpart) as [found' ->].
    rewrite bind_ret.
    match goal with
    | |- context [for_each parts scan_part ?st'] =>
        destruct (IH Hrest st') as [found ->]
    end.
    exists found. cbn [candidate_text any_text_part_found].
    destruct (qualifying_text part) as [text |].
    + cbn [fold_right]. rewrite append_assoc.
      destruct (qualifying_texts parts); reflexivity.
    + reflexivity.
Qed.

Lemma is_candidate_has_parts (candidate : pyval) (parts : list pyval) :
  is_candidate candidate parts -> has_parts candidate = true.
Proof.
  intros (content & Htrue & Hcontent & Hparts & _). unfold has_parts.
  rewrite Htrue, Hcontent. unfold hasattr. rewrite Hparts. reflexivity.
Qed.

(** One iteration of the loop over the candidates, on a candidate that has
    the nested structure. *)
Lemma scan_candidate_parts (i : nat) (candidate : pyval) (parts : list pyval)
    (all_texts : list (option string)) :
  is_candidate candidate parts ->
  exists out,
    scan_candidate (i, candidate) all_texts =
    (out, inr (all_texts ++ [candidate_result parts])).
Proof.
  intro Hc. pose proof (is_candidate_has_parts _ _ Hc) as Hhas.
  destruct Hc as (content & _ & Hcontent & Hparts & Hinst).
  unfold scan_candidate. rewrite Hhas. cbn [negb].
  rewrite (getattr_found _ _ _ Hcontent), bind_ret.
  rewrite (getattr_found _ _ _ Hparts), bind_ret.
  unfold py_iter. rewrite bind_ret.
  destruct (scan_parts_instances parts Hinst
              {| candidate_text := ""; any_text_part_found := false;
                 non_text_parts_found := [] |}) as [found ->].
  rewrite bind_ret. cbn [candidate_text any_text_part_found non_text_parts_found].
  unfold candidate_result. change ("" ++ ?s)%string with s.
  destruct found as [| name names].
  - rewrite bind_ret. exists [].
    destruct (qualifying_texts parts); reflexivity.
  - exists [WarnNonTextParts i (name :: names)].
    destruct (qualifying_texts parts); reflexivity.
Qed.

Lemma scan_candidate_absent (i : nat) (candidate : pyval)
    (all_texts : list (option string)) :
  has_parts candidate = false ->
  scan_candidate (i, candidate) all_texts =
  ([WarnCandidateNoContent i], inr (all_texts ++ [None])).
Proof. intro H. unfold scan_candidate. rewrite H. reflexivity. Qed.

(** One iteration on a candidate whose parts, where present, are a list of
    instances: a text or [None] is appended and nothing is raised. *)
Lemma scan_candidate_total (i : nat) (candidate : pyval)
    (all_texts : list (option string)) :
  sequences_where_present candidate ->
  exists out r,
    scan_candidate (i, candidate) all_texts = (out, inr (all_texts ++ [r])) /\
    (has_parts candidate = false -> r = None).
Proof.
  intro Hseq. destruct (has_parts candidate) eqn:Hhas.
  - unfold has_parts in Hhas. apply andb_prop in Hhas.
    destruct Hhas as [Htrue Hc].
    destruct (attr candidate "content") as [content |] eqn:Hcontent;
      [| discriminate].
    unfold hasattr in Hc.
    destruct (attr content "parts") as [parts |] eqn:Hparts; [| discriminate].
    destruct (Hseq _ _ Hcontent Hparts) as (items & -> & Hinst).
    destruct (scan_candidate_parts i candidate items all_texts) as [out E].
    { exists content. auto. }
    exists out, (candidate_result items). split; [exact E | discriminate].
  - exists [WarnCandidateNoContent i], None.
    split; [apply scan_candidate_absent; exact Hhas | reflexivity].
Qed.

Lemma scan_candidates_total (candidates : list pyval) :
  Forall sequences_where_present candidates ->
  forall i all_texts, exists out texts,
    for_each (combine (seq i (List.length candidates)) candidates)
      scan_candidate all_texts = (out, inr (all_texts ++ texts)) /\
    Forall2 (fun candidate r => has_parts candidate = false -> r = None)
      candidates texts.
Proof.
  induction 1 as [| candidate candidates Hc _ IH]; intros i all_texts.
  - exists [], []. cbn. rewrite app_nil_r. split; [reflexivity | constructor].
  - cbn [List.length seq combine for_each].
    destruct (scan_candidate_total i _ all_texts Hc) as (out & r & -> & Hr).
    destruct (IH (S i) (all_texts ++ [r])) as (out' & texts & E & Hall).
    rewrite bind_step, E. cbn [fst snd]. rewrite <- app_assoc.
    exists (out ++ out'), (r :: texts). split; [reflexivity |].
    constructor; assumption.
Qed.

Lemma Forall2_nth_error {A B} (R : A -> B -> Prop) (xs : list A) (ys : list B) :
  Forall2 R xs ys ->
  List.length ys = List.length xs /\
  forall i x, nth_error xs i = Some x ->
    exists y, nth_error ys i = Some y /\ R x y.
Proof.
  induction 1 as [| x y xs ys Hxy _ [IHlen IH]].
  - split; [reflexivity |]. intros [| i] x H; discriminate.
  - split; [simpl; congruence |].
    intros [| i] x' H; simpl in H.
    + injection H as <-. exists y. auto.
    + apply IH. exact H.
Qed.

(** What one iteration appends for a well-formed candidate, beside
    candidates of any kind: the result of its own parts. *)
Lemma scan_candidate_emits (i : nat) (candidate : pyval)
    (all_texts : list (option string)) :
  sequences_where_present candidate ->
  exists out r,
    scan_candidate (i, candidate) all_texts = (out, inr (all_texts ++ [r])) /\
    forall parts, is_candidate candidate parts -> r = candidate_result parts.
Proof.
  intro Hseq. destruct (has_parts candidate) eqn:Hhas.
  - unfold has_parts in Hhas. apply andb_prop in Hhas.
    destruct Hhas as [Htrue Hc].
    destruct (attr candidate "content") as [content |] eqn:Hcontent;
      [| discriminate].
    unfold hasattr in Hc.
    destruct (attr content "parts") as [parts |] eqn:Hparts; [| discriminate].
    destruct (Hseq _ _ Hcontent Hparts) as (items & -> & Hinst).
    destruct (scan_candidate_parts i candidate items all_texts) as [out E].
    { exists content. auto. }
    exists out, (candidate_result items). split; [exact E |].
    intros parts' (content' & _ & Hcontent' & Hparts' & _).
    rewrite Hcontent in Hcontent'. injection Hcontent' as <-.
    rewrite Hparts in Hparts'. injection Hparts' as <-. reflexivity.
  - exists [WarnCandidateNoContent i], None.
    split; [apply scan_candidate_absent; exact Hhas |].
    intros parts Hc. apply is_candidate_has_parts in Hc. congruence.
Qed.

Lemma scan_candidates_emit (candidates : list pyval) :
  Forall sequences_where_present candidates ->
  forall i all_texts, exists out texts,
    for_each (combine (seq i (List.length candidates)) candidates)
      scan_candidate all_texts = (out, inr (all_texts ++ texts)) /\
    Forall2 (fun candidate r =>
               forall parts,
                 is_candidate candidate parts -> r = candidate_result parts)
      candidates texts.
Proof.
  induction 1 as [| candidate candidates Hc _ IH]; intros i all_texts.
  - exists [], []. cbn. rewrite app_nil_r. split; [reflexivity | constructor].
  - cbn [List.length seq combine for_each].
    destruct (scan_candidate_emits i _ all_texts Hc) as (out & r & -> & Hr).
    destruct (IH (S i) (all_texts ++ [r])) as (out' & texts & E & Hall).
    rewrite bind_step, E. cbn [fst snd]. rewrite <- app_assoc.
    exists (out ++ out'), (r :: texts). split; [reflexivity |].
    constructor; assumption.
Qed.

(** C6: on a response that is true and whose candidates are a list (the
    [content.parts] of each, if it has them, a list of instances), the
    extractor returns one entry for each candidate, and the entry of every
    well-formed candidate (true, with [content.parts]), whatever the
    candidates beside it, is the concatenation without separator of the
    texts of its parts that hold a string and are not flagged as a thought,
    in the order of the parts, and [None] when it has no such part. *)
Theorem get_text_concatenates_qualifying_parts (response : pyval)
    (candidates : list pyval) :
  truthy response = true ->
  attr response "candidates" = Some (VList candidates) ->
  Forall sequences_where_present candidates ->
  exists texts,
    returns (get_text_from_all_candidates response) texts /\
    List.length texts = List.length candidates /\
    forall i candidate parts,
      nth_error candidates i = Some candidate ->
      is_candidate candidate parts ->
      nth_error texts i = Some (candidate_result parts).
Proof.
  intros Htrue Hattr Hcs. unfold get_text_from_all_candidates, hasattr.
  rewrite Htrue, Hattr. cbn [negb orb].
  rewrite (getattr_found _ _ _ Hattr), bind_ret.
  unfold py_iter. rewrite bind_ret. unfold enumerate.
  destruct (scan_candidates_emit _ Hcs 0 []) as (out & texts & -> & Hall).
  apply Forall2_nth_error in Hall. destruct Hall as [Hlen Hnth].
  exists texts. split; [reflexivity |]. split; [exact Hlen |].
  intros i candidate parts Hi Hc.
  destruct (Hnth _ _ Hi) as (r & Hr & Himp). rewrite Hr, (Himp _ Hc).
  reflexivity.
Qed.

(** C5, as amended: the extractor raises nothing on a response whose
    [candidates], if it has the attribute, is a list of candidates whose
    [content.parts], if they have it, is a list of instances.  A response
    that is false or has no [candidates] gives the empty list (and the
    warning); otherwise there is one result per candidate, and it is [None]
    for a candidate that is false, has no [content], or whose [content] has
    no [parts]. *)
Theorem get_text_never_raises (response : pyval) :
  (forall candidates,
     attr response "candidates" = Some candidates ->
     exists items,
       candidates = VList items /\ Forall sequences_where_present items) ->
  if negb (truthy response) || negb (hasattr response "candidates")
  then get_text_from_all_candidates response = ([WarnNoCandidates], inr [])
  else
    exists items out texts,
      attr response "candidates" = Some (VList items) /\
      get_text_from_all_candidates response = (out, inr texts) /\
      List.length texts = List.length items /\
      (forall i candidate,
         nth_error items i = Some candidate ->
         has_parts candidate = false ->
         nth_error texts i = Some None).
Proof.
  intro Hshape. unfold get_text_from_all_candidates.
  destruct (negb (truthy response) || negb (hasattr response "candidates"))
    eqn:Habsent; [reflexivity |].
  apply orb_false_elim in Habsent. destruct Habsent as [_ Hhas].
  apply negb_false_iff in Hhas. unfold hasattr in Hhas.
  destruct (attr response "candidates") as [candidates |] eqn:Hattr;
    [| discriminate].
  destruct (Hshape _ eq_refl) as (items & -> & Hitems).
  rewrite (getattr_found _ _ _ Hattr), bind_ret.
  unfold py_iter. rewrite bind_ret. unfold enumerate.
  destruct (scan_candidates_total _ Hitems 0 []) as (out & texts & -> & Hall).
  apply Forall2_nth_error in Hall. destruct Hall as [Hlen Hnth].
  exists items, out, texts. repeat split; [exact Hlen |].
  intros i candidate Hi Hno.
  destruct (Hnth _ _ Hi) as (r & Hr & Himp). rewrite Hr, (Himp Hno).
  reflexivity.
Qed.

(** ** Cost *)

Lemma add_word_count_part_list (d : list (string * pyval)) (parts : list pyval)
    (total : Z) :
  lookup "content" d = Some (VList parts) ->
  add_word_count (VDict d) total = raise (AttributeError "split").
Proof.
  intro H. unfold add_word_count, dict_get. rewrite H, bind_ret. reflexivity.
Qed.

Lemma add_word_count_string (msg : pyval) (content : string) (total : Z) :
  has_string_content msg content ->
  add_word_count msg total = ret (total + Z.of_nat (count_words content))%Z.
Proof.
  intros (d & -> & H). unfold add_word_count, dict_get.
  rewrite H, bind_ret. unfold split_len. rewrite bind_ret. reflexivity.
Qed.

Lemma word_counts_strings (messages : list pyval) (contents : list string) :
  Forall2 has_string_content messages contents ->
  forall total,
    for_each messages add_word_count total =
    ret (fold_left (fun total c => (total + Z.of_nat (count_words c))%Z)
           contents total).
Proof.
  induction 1 as [| msg c messages contents Hc _ IH]; intro total;
    cbn [for_each fold_left]; [reflexivity |].
  rewrite (add_word_count_string _ _ _ Hc), bind_ret. apply IH.
Qed.

(** On messages whose contents are strings, the estimate is the word count
    of the contents times the input cost plus the word count of
    [response.text] times the output cost. *)
Lemma estimate_cost_string_contents (self : GeminiService)
    (messages : list pyval) (contents : list string) (response : pyval)
    (text : string) :
  Forall2 has_string_content messages contents ->
  attr response "text" = Some (VStr text) ->
  estimate_cost self (VList messages) response =
  (input_total <- float_of_int (word_total contents) ;;
   output_total <- float_of_int (Z.of_nat (count_words text)) ;;
   let model_costs :=
     match MODEL_COSTS (config self) with Some t => t | None => [] end in
   ret (input_total * unit_cost model_costs (model_name self) input_cost +
        output_total * unit_cost model_costs (model_name self) output_cost)%float).
Proof.
  intros Hc Ht. unfold estimate_cost, py_iter. rewrite bind_ret.
  rewrite (word_counts_strings _ _ Hc), bind_ret.
  rewrite (getattr_found _ _ _ Ht), bind_ret.
  unfold split_len. rewrite bind_ret. reflexivity.
Qed.

Lemma estimate_cost_part_list (self : GeminiService) (pre post : list pyval)
    (d : list (string * pyval)) (parts : list pyval) (response : pyval) :
  lookup "content" d = Some (VList parts) ->
  fails (estimate_cost self (VList (pre ++ VDict d :: post)) response).
Proof.
  intro H. unfold estimate_cost, py_iter. rewrite bind_ret.
  apply bind_fails. apply for_each_fails_at. intro total.
  rewrite (add_word_count_part_list _ _ _ H).
  exists (AttributeError "split"). reflexivity.
Qed.

Section CostProperties.

Variable py_str : pyval -> string.

(** C1: with cost tracking enabled, a conversation holding a message whose
    content is a list of parts has no cost: the word count calls [split] on
    the list, and [chat_completion] raises. *)
Theorem cost_tracking_rejects_part_lists (self : GeminiService)
    (pre post : list pyval) (d : list (string * pyval)) (parts : list pyval)
    (n : Z) (temperature : option float) (max_tokens : option Z)
    (top_p : option float) (kwargs : list (string * pyval)) :
  cost_tracking_enabled self = true ->
  lookup "content" d = Some (VList parts) ->
  fails (chat_completion py_str self (VList (pre ++ VDict d :: post)) n
           temperature max_tokens top_p kwargs).
Proof.
  intros Hon Hd. unfold chat_completion.
  apply try_except_fails; [| intro e; apply reraise_fails].
  apply bind_all_fail. intro gemini_messages.
  apply bind_all_fail. intro response.
  apply bind_fails. rewrite Hon.
  apply (estimate_cost_part_list _ _ _ _ _ _ Hd).
Qed.

(** C7: with cost tracking off or not configured, a call that returns
    returns the cost [0.0], and the call returns whenever the translation,
    the provider and the extraction do. *)
Theorem cost_is_zero_without_tracking (self : GeminiService) (messages : pyval)
    (n : Z) (temperature : option float) (max_tokens : option Z)
    (top_p : option float) (kwargs : list (string * pyval)) :
  ENABLE_COST_TRACKING (config self) = None \/
  ENABLE_COST_TRACKING (config self) = Some false ->
  (forall texts cost,
     returns (chat_completion py_str self messages n temperature max_tokens
                top_p kwargs) (texts, cost) ->
     cost = 0%float) /\
  (forall gemini_messages response texts,
     returns (process_messages py_str messages) gemini_messages ->
     generate_content self gemini_messages
       (generation_config self temperature max_tokens top_p) = inr response ->
     returns (get_text_from_all_candidates response) texts ->
     returns (chat_completion py_str self messages n temperature max_tokens
                top_p kwargs) (texts, 0%float)).
Proof.
  intro Hoff.
  assert (Hflag : cost_tracking_enabled self = false)
    by (unfold cost_tracking_enabled; destruct Hoff as [-> | ->]; reflexivity).
  unfold chat_completion. rewrite Hflag. split.
  - intros texts cost H.
    apply try_except_returns in H; [| intro e; apply reraise_fails].
    apply bind_returns_inv in H. destruct H as (gemini_messages & _ & H).
    apply bind_returns_inv in H. destruct H as (response & _ & H).
    apply bind_returns_inv in H. destruct H as (cost' & Hcost & H).
    apply bind_returns_inv in H. destruct H as (texts' & _ & H).
    unfold returns in Hcost, H. simpl in Hcost, H. congruence.
  - intros gemini_messages response texts Hpm Hgen Hget.
    apply try_except_returns; [intro e; apply reraise_fails |].
    apply (bind_returns _ _ _ _ Hpm). cbv zeta. rewrite Hgen.
    apply (bind_returns _ _ response); [reflexivity |].
    apply (bind_returns _ _ 0%float); [reflexivity |].
    apply (bind_returns _ _ _ _ Hget). reflexivity.
Qed.

(** C9: two calls with the same messages, [temperature], [max_tokens] and
    [top_p], on services with the same configuration and model name whose
    providers give the same answer to the request, have the same outcome
    (what is printed, and the results and cost or the exception), whatever
    [n] and the extra keyword arguments of each call are: the request is
    the translated messages and the generation config, and neither reads
    [n]. *)
Theorem chat_completion_ignores_n (self self' : GeminiService)
    (messages : pyval) (n n' : Z) (temperature : option float)
    (max_tokens : option Z) (top_p : option float)
    (kwargs kwargs' : list (string * pyval)) :
  config self = config self' ->
  model_name self = model_name self' ->
  (forall gemini_messages,
     returns (process_messages py_str messages) gemini_messages ->
     generate_content self gemini_messages
       (generation_config self temperature max_tokens top_p) =
     generate_content self' gemini_messages
       (generation_config self' temperature max_tokens top_p)) ->
  chat_completion py_str self messages n temperature max_tokens top_p kwargs =
  chat_completion py_str self' messages n' temperature max_tokens top_p kwargs'.
Proof.
  intros Hconfig Hname Hanswer. unfold chat_completion.
  destruct (process_messages py_str messages) as [out [e | gemini_messages]];
    [reflexivity |].
  specialize (Hanswer gemini_messages eq_refl).
  destruct self as [c m g], self' as [c' m' g'].
  cbn [config model_name] in Hconfig, Hname. subst c' m'.
  unfold generation_config, cost_tracking_enabled, estimate_cost, unit_cost in *.
  cbn [config model_name generate_content] in *.
  cbn [bind]. rewrite Hanswer. reflexivity.
Qed.

End CostProperties.

(** ** The claims on concrete requests and responses *)

Example count_words_sample : count_words "  the quick  brown fox " = 4.
Proof. reflexivity. Qed.

Example match_png :
  match_data_url "data:image/png;base64,iVBORw0KGgo=" =
  Some ("image/png", "iVBORw0KGgo=").
Proof. reflexivity. Qed.

Example b64encode_sample : b64encode [x4d; x61; x6e; x79] = "TWFueQ==".
Proof. reflexivity. Qed.

Example b64decode_skips_other_characters :
  b64decode "TWF ueQ==" = ret [x4d; x61; x6e; x79].
Proof. reflexivity. Qed.

Example b64decode_open_quad :
  b64decode "TWFueQ" = raise (BinasciiError "Incorrect padding").
Proof. reflexivity. Qed.

(** The pattern splits a mime type at its first [";base64,"]: a subtype has
    to be free of it for the round trip. *)
Example mime_type_cut_short :
  match_data_url (data_url "image/a;base64,b" [x4d]) =
  Some ("image/a", "b;base64,TQ==").
Proof. reflexivity. Qed.

(** A translation with a text, an image, a part of another type and a
    system message. *)
Example process_messages_sample :
  process_messages opaque_str
    (VList [message "system" (VStr "X");
            message "user"
              (VList [text_part "a";
                      image_part "data:image/png;base64,TWFueQ==";
                      VDict [("type", VStr "audio")];
                      text_part "b"])]) =
  ret [VStr "Your general instruction: X"; VStr "a";
       VDict [("mime_type", VStr "image/png");
              ("data", VBytes [x4d; x61; x6e; x79])];
       VStr "b"].
Proof. reflexivity. Qed.

(** Witness of C2. *)
Lemma process_messages_text_only_witness :
  Forall2 is_text_message
    [message "system" (VStr "X");
     message "user" (VList [text_part "a"; text_part "b"])]
    [SystemText "X"; PartsText ["a"; "b"]] /\
  process_messages opaque_str
    (VList [message "system" (VStr "X");
            message "user" (VList [text_part "a"; text_part "b"])]) =
  ret [VStr "Your general instruction: X"; VStr "a"; VStr "b"].
Proof.
  assert (H : Forall2 is_text_message
                [message "system" (VStr "X");
                 message "user" (VList [text_part "a"; text_part "b"])]
                [SystemText "X"; PartsText ["a"; "b"]]).
  { constructor; [| constructor; [| constructor]].
    - apply IsSystemText; reflexivity.
    - apply IsPartsText with (parts := [text_part "a"; text_part "b"]).
      + apply IsPartsMessage with (role := VStr "user"); reflexivity.
      + repeat constructor. }
  split; [exact H |].
  exact (process_messages_text_only opaque_str _ _ H).
Defined.

(** Counterexample to C3: the data URL of the empty byte sequence is
    rejected, where the claim has it decode to the empty bytes. *)
Lemma empty_image_is_rejected :
  data_url "image/png" [] = "data:image/png;base64," /\
  base64_to_blob (VStr (data_url "image/png" [])) = invalid_format /\
  base64_to_blob (VStr (data_url "image/png" [])) <>
  ret (VDict [("mime_type", VStr "image/png"); ("data", VBytes [])]).
Proof. repeat split. discriminate. Qed.

(** Witness of C3. *)
Lemma base64_to_blob_round_trip_witness :
  [x89; x50; x4e; x47] <> [] /\
  plain_subtype "png" = true /\
  base64_to_blob (VStr (data_url "image/png" [x89; x50; x4e; x47])) =
  ret (VDict [("mime_type", VStr "image/png");
              ("data", VBytes [x89; x50; x4e; x47])]).
Proof.
  split; [discriminate | split; [reflexivity |]].
  apply (base64_to_blob_round_trip [x89; x50; x4e; x47] "png");
    [discriminate | reflexivity].
Defined.

(** A URL without the marker [";base64,"] is not of the shape. *)
Lemma no_marker_not_shaped : ~ data_url_shaped "data:image/png,AAAA".
Proof.
  intros (subtype & payload & H). cbn [append] in H.
  injection H as H.
  repeat (destruct subtype as [| ? subtype]; cbn [append] in H;
          [discriminate H | injection H as _ H]).
  destruct subtype; discriminate H.
Qed.

(** Witness of C4: after a system message and a text part, the image part
    stops the translation and the call. *)
Lemma malformed_data_url_is_fatal_witness :
  ~ data_url_shaped "data:image/png,AAAA" /\
  base64_to_blob (VStr "data:image/png,AAAA") = invalid_format /\
  raises
    (chat_completion opaque_str (service None (response_of "" []))
       (VList [message "system" (VStr "X");
               message "user"
                 (VList [text_part "a"; image_part "data:image/png,AAAA"])])
       1 None None None [])
    (ValueError "Invalid data URL format.").
Proof.
  split; [exact no_marker_not_shaped |].
  destruct (malformed_data_url_is_fatal opaque_str "data:image/png,AAAA"
              no_marker_not_shaped) as (Hblob & _ & Hconv).
  split; [exact Hblob |].
  assert (Hpart : is_image_part (image_part "data:image/png,AAAA")
                    (VStr "data:image/png,AAAA")).
  { apply IsImagePart with (image_url := [("url", VStr "data:image/png,AAAA")]);
      reflexivity. }
  assert (Hmsg : is_parts_message
                   (message "user"
                      (VList [text_part "a"; image_part "data:image/png,AAAA"]))
                   ([text_part "a"] ++ image_part "data:image/png,AAAA" :: [])).
  { apply IsPartsMessage with (role := VStr "user"); reflexivity. }
  destruct (Hconv _ _ _ _ [message "system" (VStr "X")] [] Hpart Hmsg)
    as (_ & _ & Hraise).
  destruct (Hraise [VStr "Your general instruction: X"]
              [VStr "Your general instruction: X"; VStr "a"]
              eq_refl eq_refl) as [_ Hcall].
  exact (Hcall (service None (response_of "" [])) 1%Z None None None []).
Defined.

(** What the sample call prints on the way. *)
Example malformed_data_url_printed :
  chat_completion opaque_str (service None (response_of "" []))
    (VList [message "user" (VList [image_part "data:image/png,AAAA"])])
    1 None None None [] =
  ([CouldNotParseDataURL;
    ErrorInChatCompletion (ValueError "Invalid data URL format.")],
   inl (ValueError "Invalid data URL format.")).
Proof. reflexivity. Qed.

(** Witness of C10. *)
Lemma base64_to_blob_needs_subtype_and_payload_witness :
  no_semicolon "iVBORw0KGgo=" = true /\
  base64_to_blob (VStr "data:image/png;base64,") = invalid_format /\
  base64_to_blob (VStr "data:image/;base64,iVBORw0KGgo=") = invalid_format.
Proof.
  split; [reflexivity |].
  destruct (base64_to_blob_needs_subtype_and_payload "iVBORw0KGgo=" eq_refl)
    as (Hempty & Hmime & _).
  split; [exact Hempty | exact Hmime].
Defined.

(** Witness of C8. *)
Lemma process_messages_skips_other_parts_witness :
  is_other_part (VDict [("type", VStr "audio")]) /\
  process_messages opaque_str
    (VList [message "user"
              (VList [text_part "a"; VDict [("type", VStr "audio")];
                      text_part "b"])]) =
  process_messages opaque_str
    (VList [message "user" (VList [text_part "a"; text_part "b"])]).
Proof.
  assert (H : is_other_part (VDict [("type", VStr "audio")]))
    by (apply IsOtherPart with (type := VStr "audio"); reflexivity).
  split; [exact H |].
  destruct (process_messages_skips_other_parts opaque_str _ H) as (_ & _ & Hm).
  apply (Hm (message "user"
               (VList [text_part "a"; VDict [("type", VStr "audio")];
                       text_part "b"]))
            (message "user" (VList [text_part "a"; text_part "b"]))
            [text_part "a"] [text_part "b"] [] []).
  - apply IsPartsMessage with (role := VStr "user"); reflexivity.
  - apply IsPartsMessage with (role := VStr "user"); reflexivity.
Defined.

(** An extraction with texts, a thought, a field that is neither, an absent
    candidate and a candidate without parts. *)
Example get_text_sample :
  get_text_from_all_candidates
    (response_of ""
       [candidate [text_of_model "a"; text_of_model "b"];
        candidate [instance [("text", VStr "t"); ("thought", VBool true);
                         ("function_call", VInt 1)]];
        VNone;
        instance [("content", VNone)]]) =
  ([WarnNonTextParts 1 ["function_call"]; WarnCandidateNoContent 2;
    WarnCandidateNoContent 3],
   inr [Some "ab"; None; None; None]).
Proof. reflexivity. Qed.

(** A part as the message classes of the vendor SDK present it: the
    [__dict__] holds the wrapped message only, which the check for non-text
    parts reports, and [text] is served besides. *)
Example get_text_wrapped_part :
  get_text_from_all_candidates
    (response_of ""
       [candidate [VObj true [("_pb", VInt 0)] [("text", VStr "hi")]]]) =
  ([WarnNonTextParts 0 ["_pb"]], inr [Some "hi"]).
Proof. reflexivity. Qed.

(** A candidate that is false, as an empty message of the SDK is. *)
Example get_text_false_candidate :
  get_text_from_all_candidates
    (response_of ""
       [VObj false [] [("content", instance [("parts", VList [])])]]) =
  ([WarnCandidateNoContent 0], inr [None]).
Proof. reflexivity. Qed.

(** Counterexample to C5: a candidate whose [content.parts] is [None] has
    the attribute, so the loop over the parts is entered and raises
    [TypeError]; the same happens when [candidates] is [None], and a part
    without a [__dict__] raises [AttributeError]. *)
Lemma get_text_raises_on_null_parts :
  get_text_from_all_candidates
    (instance [("candidates",
            VList [instance [("content", instance [("parts", VNone)])]])]) =
  ([], inl TypeError) /\
  get_text_from_all_candidates (instance [("candidates", VNone)]) =
  ([], inl TypeError) /\
  get_text_from_all_candidates
    (instance [("candidates", VList [candidate [VNone]])]) =
  ([], inl (AttributeError "__dict__")).
Proof. repeat split. Qed.

(** Witness of C5. *)
Lemma get_text_never_raises_witness :
  (forall candidates,
     attr (response_of "" [candidate [text_of_model "a"]; VNone;
                           instance [("content", VNone)]]) "candidates" =
     Some candidates ->
     exists items,
       candidates = VList items /\ Forall sequences_where_present items) /\
  exists out texts,
    get_text_from_all_candidates
      (response_of "" [candidate [text_of_model "a"]; VNone;
                       instance [("content", VNone)]]) = (out, inr texts) /\
    List.length texts = 3 /\
    nth_error texts 1 = Some None /\ nth_error texts 2 = Some None.
Proof.
  assert (H : forall candidates,
             attr (response_of "" [candidate [text_of_model "a"]; VNone;
                                   instance [("content", VNone)]]) "candidates" =
             Some candidates ->
             exists items,
               candidates = VList items /\
               Forall sequences_where_present items).
  { intros candidates E. injection E as <-.
    eexists. split; [reflexivity |].
    repeat constructor; intros content parts E1 E2; try discriminate E1.
    - injection E1 as <-. injection E2 as <-.
      eexists. split; reflexivity.
    - injection E1 as <-. discriminate E2. }
  split; [exact H |].
  pose proof (get_text_never_raises _ H) as T. cbn [negb orb] in T.
  change (negb (truthy (response_of "" [candidate [text_of_model "a"]; VNone;
                                        instance [("content", VNone)]]))
          || negb (hasattr (response_of "" [candidate [text_of_model "a"]; VNone;
                                            instance [("content", VNone)]])
                     "candidates")) with false in T.
  cbv iota in T.
  destruct T as (items & out & texts & Hitems & Hget & Hlen & Hnone).
  injection Hitems as <-.
  exists out, texts. split; [exact Hget |]. split; [exact Hlen |]. split.
  - apply (Hnone 1 VNone); reflexivity.
  - apply (Hnone 2 (instance [("content", VNone)])); reflexivity.
Defined.

(** Witness of C6: beside a candidate that is [None], the parts ["a"] then
    ["b"] give ["ab"], and a candidate whose only part is flagged as a
    thought gives [None]. *)
Lemma get_text_concatenates_qualifying_parts_witness :
  truthy (response_of "" [candidate [text_of_model "a"; text_of_model "b"];
                          VNone;
                          candidate [thought_of_model "t"]]) = true /\
  attr (response_of "" [candidate [text_of_model "a"; text_of_model "b"];
                        VNone;
                        candidate [thought_of_model "t"]]) "candidates" =
  Some (VList [candidate [text_of_model "a"; text_of_model "b"];
               VNone;
               candidate [thought_of_model "t"]]) /\
  Forall sequences_where_present
    [candidate [text_of_model "a"; text_of_model "b"];
     VNone;
     candidate [thought_of_model "t"]] /\
  exists texts,
    returns
      (get_text_from_all_candidates
         (response_of "" [candidate [text_of_model "a"; text_of_model "b"];
                          VNone;
                          candidate [thought_of_model "t"]]))
      texts /\
    List.length texts = 3 /\
    nth_error texts 0 = Some (Some "ab") /\
    nth_error texts 2 = Some None.
Proof.
  assert (H : Forall sequences_where_present
                [candidate [text_of_model "a"; text_of_model "b"];
                 VNone;
                 candidate [thought_of_model "t"]]).
  { repeat constructor; intros content parts E1 E2; try discriminate E1;
      injection E1 as <-; injection E2 as <-; eexists; split; reflexivity. }
  split; [reflexivity | split; [reflexivity | split; [exact H |]]].
  destruct (get_text_concatenates_qualifying_parts
              (response_of "" [candidate [text_of_model "a"; text_of_model "b"];
                               VNone;
                               candidate [thought_of_model "t"]])
              _ eq_refl eq_refl H) as (texts & Hget & Hlen & Hnth).
  exists texts. split; [exact Hget |]. split; [exact Hlen |]. split.
  - apply (Hnth 0 (candidate [text_of_model "a"; text_of_model "b"])
             [text_of_model "a"; text_of_model "b"]); [reflexivity |].
    eexists. repeat split.
  - apply (Hnth 2 (candidate [thought_of_model "t"]) [thought_of_model "t"]);
      [reflexivity |].
    eexists. repeat split.
Defined.

(** Witness of C1: one user message with one text part, cost tracking
    enabled. *)
Lemma cost_tracking_rejects_part_lists_witness :
  cost_tracking_enabled
    (service (Some true) (response_of "hi" [candidate [text_of_model "hi"]])) =
  true /\
  lookup "content"
    [("role", VStr "user"); ("content", VList [text_part "hello world"])] =
  Some (VList [text_part "hello world"]) /\
  fails
    (chat_completion opaque_str
       (service (Some true) (response_of "hi" [candidate [text_of_model "hi"]]))
       (VList [message "user" (VList [text_part "hello world"])])
       1 None None None []).
Proof.
  split; [reflexivity | split; [reflexivity |]].
  exact (cost_tracking_rejects_part_lists opaque_str
           (service (Some true)
              (response_of "hi" [candidate [text_of_model "hi"]]))
           [] []
           [("role", VStr "user"); ("content", VList [text_part "hello world"])]
           [text_part "hello world"] 1%Z None None None [] eq_refl eq_refl).
Defined.

(** The exception of that call, and the same call without cost tracking. *)
Example cost_tracking_attribute_error :
  chat_completion opaque_str
    (service (Some true) (response_of "hi" [candidate [text_of_model "hi"]]))
    (VList [message "user" (VList [text_part "hello world"])])
    1 None None None [] =
  ([ErrorInChatCompletion (AttributeError "split")],
   inl (AttributeError "split")).
Proof. vm_compute. reflexivity. Qed.

Example same_call_without_cost_tracking :
  chat_completion opaque_str
    (service None (response_of "hi" [candidate [text_of_model "hi"]]))
    (VList [message "user" (VList [text_part "hello world"])])
    1 None None None [] =
  ret ([Some "hi"], 0%float).
Proof. vm_compute. reflexivity. Qed.

(** A single bare message with cost tracking enabled: the word count
    iterates over the keys of the dictionary. *)
Example cost_tracking_bare_message :
  chat_completion opaque_str
    (service (Some true) (response_of "hi" [candidate [text_of_model "hi"]]))
    (message "system" (VStr "be brief"))
    1 None None None [] =
  ([ErrorInChatCompletion (AttributeError "get")], inl (AttributeError "get")).
Proof. vm_compute. reflexivity. Qed.

(** Ten words in, five words out, at 0.01 and 0.02 a word: 0.20. *)
Example cost_of_ten_and_five_words :
  chat_completion opaque_str
    (service (Some true)
       (response_of "one two three four five"
          [candidate [text_of_model "one two three four five"]]))
    (VList [message "system" (VStr "a b c d e f");
            message "system" (VStr "g h i j")])
    1 None None None [] =
  ret ([Some "one two three four five"], 0.2%float).
Proof. vm_compute. reflexivity. Qed.

(** Witness of C7. *)
Lemma cost_is_zero_without_tracking_witness :
  (ENABLE_COST_TRACKING
     (config (service None
                (response_of "hi" [candidate [text_of_model "hi"]]))) = None \/
   ENABLE_COST_TRACKING
     (config (service None
                (response_of "hi" [candidate [text_of_model "hi"]]))) =
   Some false) /\
  returns
    (chat_completion opaque_str
       (service None (response_of "hi" [candidate [text_of_model "hi"]]))
       (VList [message "user" (VList [text_part "hello world"])])
       1 None None None [])
    ([Some "hi"], 0%float).
Proof.
  split; [left; reflexivity |].
  destruct (cost_is_zero_without_tracking opaque_str
              (service None (response_of "hi" [candidate [text_of_model "hi"]]))
              (VList [message "user" (VList [text_part "hello world"])])
              1%Z None None None [] (or_introl eq_refl)) as [_ H].
  apply (H [VStr "hello world"]
           (response_of "hi" [candidate [text_of_model "hi"]])
           [Some "hi"]); reflexivity.
Defined.

(** Witness of C9: one call with the defaults, one asking for five
    completions in a stream, on a provider that differs on other requests. *)
Lemma chat_completion_ignores_n_witness :
  chat_completion opaque_str
    (service None (response_of "hi" [candidate [text_of_model "hi"]]))
    (VList [message "user" (VList [text_part "hello world"])])
    1 None None None [] =
  chat_completion opaque_str
    {| config :=
         config (service None
                   (response_of "hi" [candidate [text_of_model "hi"]]));
       model_name := "gemini-pro";
       generate_content :=
         fun contents _ =>
           match contents with
           | [] => inl (ProviderError "empty request")
           | _ => inr (response_of "hi" [candidate [text_of_model "hi"]])
           end |}
    (VList [message "user" (VList [text_part "hello world"])])
    5 None None None [("stream", VBool true)].
Proof.
  apply chat_completion_ignores_n; [reflexivity | reflexivity |].
  intros gemini_messages H.
  assert (gemini_messages = [VStr "hello world"]) as ->
    by (unfold returns in H; cbn in H; congruence).
  reflexivity.
Defined.

(** * Further properties *)

(** ** The translator as a whole *)

(** A body that only appends to what it is given can be run on the empty
    list, and so can the loop. *)
Lemma for_each_appends {A B} (body : A -> list B -> M (list B)) :
  (forall x acc, body x acc = bind (body x []) (fun r => ret (acc ++ r))) ->
  forall xs acc,
    for_each xs body acc = bind (for_each xs body []) (fun r => ret (acc ++ r)).
Proof.
  intros Hbody xs. induction xs as [| x xs IH]; intro acc; cbn [for_each].
  - rewrite bind_ret, app_nil_r. reflexivity.
  - rewrite (Hbody x acc), !bind_assoc. apply bind_ext. intro r.
    rewrite bind_ret, (IH (acc ++ r)), (IH r), bind_assoc.
    apply bind_ext. intro r'. rewrite bind_ret, app_assoc. reflexivity.
Qed.

Lemma process_part_appends (part : pyval) (acc : list pyval) :
  process_part part acc =
  bind (process_part part []) (fun r => ret (acc ++ r)).
Proof.
  unfold process_part. rewrite bind_assoc. apply bind_ext. intro type.
  destruct (eq_str type "text").
  - rewrite bind_assoc. apply bind_ext. intro prompt.
    rewrite bind_ret. reflexivity.
  - destruct (eq_str type "image_url").
    + repeat (rewrite bind_assoc; apply bind_ext; intro).
      rewrite bind_ret. reflexivity.
    + rewrite bind_ret, app_nil_r. reflexivity.
Qed.

Section TranslatorAsAWhole.

Variable py_str : pyval -> string.

Lemma process_message_appends (message : pyval) (acc : list pyval) :
  process_message py_str message acc =
  bind (process_message py_str message []) (fun r => ret (acc ++ r)).
Proof.
  unfold process_message. rewrite bind_assoc. apply bind_ext. intro role.
  destruct (eq_str role "system").
  - rewrite bind_assoc. apply bind_ext. intro content.
    rewrite bind_ret. reflexivity.
  - repeat (rewrite bind_assoc; apply bind_ext; intro).
    apply (for_each_appends process_part process_part_appends).
Qed.

(** X1: the translation of a conversation is the translation of its first
    part followed by that of the rest: what a message contributes does not
    depend on the messages before it, and an exception in the first part is
    the exception of the whole. *)
Theorem process_messages_app (before after : list pyval) :
  process_messages py_str (VList (before ++ after)) =
  (prompts <- process_messages py_str (VList before) ;;
   prompts' <- process_messages py_str (VList after) ;;
   ret (prompts ++ prompts')).
Proof.
  rewrite !process_messages_list, for_each_app. apply bind_ext. intro prompts.
  apply (for_each_appends (process_message py_str) process_message_appends).
Qed.

Lemma process_part_image (part : pyval) (subtype : string) (bs : list byte)
    (acc : list pyval) :
  is_image_part part (VStr (data_url ("image/" ++ subtype) bs)) ->
  bs <> [] ->
  plain_subtype subtype = true ->
  process_part part acc =
  ret (acc ++ [VDict [("mime_type", VStr ("image/" ++ subtype)%string);
                      ("data", VBytes bs)]]).
Proof.
  intros Hpart Hbs Hsub.
  inversion Hpart as [d image_url u Htype Himage Hu]; subst.
  unfold process_part.
  rewrite (getitem_found _ _ _ Htype), bind_ret.
  change (eq_str (VStr "image_url") "text") with false.
  change (eq_str (VStr "image_url") "image_url") with true. cbv iota.
  rewrite (getitem_found _ _ _ Himage), bind_ret.
  rewrite (getitem_found _ _ _ Hu), bind_ret.
  unfold base64_to_blob.
  rewrite (match_data_url_plain _ _ Hbs Hsub), b64decode_b64encode.
  rewrite !bind_ret. reflexivity.
Qed.

Lemma for_each_parts (parts : list pyval) (views : list part_view) :
  Forall2 is_part parts views ->
  forall acc,
    for_each parts process_part acc = ret (acc ++ flat_map part_prompts views).
Proof.
  induction 1 as [| part view parts views Hpart _ IH]; intro acc;
    cbn [for_each flat_map].
  - rewrite app_nil_r. reflexivity.
  - destruct Hpart as [part t Ht | part subtype bs Hi Hbs Hsub | part Ho].
    + rewrite (process_part_text _ _ _ Ht), bind_ret, IH, <- app_assoc.
      reflexivity.
    + rewrite (process_part_image _ _ _ _ Hi Hbs Hsub), bind_ret, IH,
        <- app_assoc. reflexivity.
    + rewrite (process_part_other _ _ Ho), bind_ret, IH. reflexivity.
Qed.

Lemma process_message_view (message : pyval) (m : message_view)
    (acc : list pyval) :
  is_message message m ->
  process_message py_str message acc = ret (acc ++ message_prompts m).
Proof.
  intros [d x Hrole Hcontent | msg parts views Hmsg Hparts].
  - unfold process_message.
    rewrite (getitem_found _ _ _ Hrole), bind_ret.
    change (eq_str (VStr "system") "system") with true. cbv iota.
    rewrite (getitem_found _ _ _ Hcontent), bind_ret. reflexivity.
  - rewrite (process_message_parts _ _ _ _ Hmsg).
    apply for_each_parts. exact Hparts.
Qed.

(** X2: on a conversation of system messages and of messages holding
    texts, images and parts of other types, the images given by data URLs
    of non-empty bytes with a plain subtype, the translation returns, in
    order, the prefixed string of each system message, the text of each
    text part and [{mime_type, data}] with the decoded bytes for each
    image; the other parts leave no trace, and nothing is printed. *)
Theorem process_messages_mixed (messages : list pyval)
    (conversation : list message_view) :
  Forall2 is_message messages conversation ->
  process_messages py_str (VList messages) =
  ret (flat_map message_prompts conversation).
Proof.
  intro H. rewrite process_messages_list.
  enough (G : forall acc,
             for_each messages (process_message py_str) acc =
             ret (acc ++ flat_map message_prompts conversation))
    by apply (G []).
  induction H as [| message m messages conversation Hm _ IH]; intro acc;
    cbn [for_each flat_map].
  - rewrite app_nil_r. reflexivity.
  - rewrite (process_message_view _ _ _ Hm), bind_ret, IH, <- app_assoc.
    reflexivity.
Qed.

End TranslatorAsAWhole.

(** ** What the translator prints, and its exceptions *)

Lemma quiet_bind {A B} (m : M A) (k : A -> M B) :
  quiet_or_invalid_format m ->
  (forall a, quiet_or_invalid_format (k a)) ->
  quiet_or_invalid_format (bind m k).
Proof.
  intros [[Hout Hexn] | ->] Hk; [| right; reflexivity].
  destruct m as [out [e | a]]; cbn [fst] in Hout; subst out.
  - left. split; [reflexivity |]. unfold raises in *. cbn in *.
    intro H. apply Hexn. injection H as ->. reflexivity.
  - rewrite bind_step. cbn [app].
    destruct (k a) as [out' r] eqn:E. specialize (Hk a). rewrite E in Hk.
    exact Hk.
Qed.

Lemma quiet_ret {A} (a : A) : quiet_or_invalid_format (ret a).
Proof. left. split; [reflexivity | discriminate]. Qed.

Lemma quiet_getitem (v : pyval) (k : string) :
  quiet_or_invalid_format (getitem v k).
Proof.
  left. unfold getitem. destruct v; try (split; [reflexivity | discriminate]).
  destruct (lookup k entries); split; try reflexivity; discriminate.
Qed.

Lemma quiet_py_iter (v : pyval) : quiet_or_invalid_format (py_iter v).
Proof. left. destruct v; split; try reflexivity; discriminate. Qed.

(** The decoding loop raises [binascii.Error] only. *)
Lemma a2b_loop_raises_binascii (cs : list ascii) :
  forall quad_pos leftchar pads bin_data e,
    a2b_loop cs quad_pos leftchar pads bin_data = inl e ->
    exists msg, e = BinasciiError msg.
Proof.
  induction cs as [| c cs IH]; intros quad_pos leftchar pads bin_data e;
    cbn [a2b_loop].
  - destruct quad_pos as [| [| quad_pos]]; intro H;
      [discriminate H | injection H as <- | injection H as <-]; eauto.
  - destruct (Ascii.eqb c BASE64_PAD).
    + destruct (2 <=? quad_pos)%nat; [| apply IH].
      destruct (4 <=? quad_pos + S pads)%nat; [discriminate | apply IH].
    + destruct (64 <=? table_a2b_base64 c)%N; [apply IH |].
      destruct quad_pos as [| [| [| quad_pos]]]; apply IH.
Qed.

Lemma quiet_b64decode (s : string) : quiet_or_invalid_format (b64decode s).
Proof.
  left. unfold b64decode, a2b_base64, lift.
  destruct (forallb is_ascii (list_ascii_of_string s));
    [| split; [reflexivity | discriminate]].
  split; [reflexivity |]. unfold raises. cbn [snd]. intro H.
  apply a2b_loop_raises_binascii in H. destruct H as [msg H]. discriminate H.
Qed.

Lemma quiet_base64_to_blob (v : pyval) :
  quiet_or_invalid_format (base64_to_blob v).
Proof.
  unfold base64_to_blob.
  destruct v; try (left; split; [reflexivity | discriminate]).
  destruct (match_data_url s) as [[mime_type base64_string] |].
  - apply quiet_bind; [apply quiet_b64decode | intro; apply quiet_ret].
  - right. reflexivity.
Qed.

Lemma quiet_for_each {A S} (body : A -> S -> M S) (xs : list A) :
  (forall x st, quiet_or_invalid_format (body x st)) ->
  forall st, quiet_or_invalid_format (for_each xs body st).
Proof.
  intro Hbody. induction xs as [| x xs IH]; intro st; cbn [for_each].
  - apply quiet_ret.
  - apply quiet_bind; [apply Hbody | exact IH].
Qed.

Lemma quiet_process_part (part : pyval) (acc : list pyval) :
  quiet_or_invalid_format (process_part part acc).
Proof.
  unfold process_part.
  apply quiet_bind; [apply quiet_getitem | intro type].
  destruct (eq_str type "text").
  - apply quiet_bind; [apply quiet_getitem | intro; apply quiet_ret].
  - destruct (eq_str type "image_url"); [| apply quiet_ret].
    repeat (apply quiet_bind;
            [first [apply quiet_getitem | apply quiet_base64_to_blob] | intro]).
    apply quiet_ret.
Qed.

Section TranslatorOutput.

Variable py_str : pyval -> string.

Lemma quiet_process_message (message : pyval) (acc : list pyval) :
  quiet_or_invalid_format (process_message py_str message acc).
Proof.
  unfold process_message.
  apply quiet_bind; [apply quiet_getitem | intro role].
  destruct (eq_str role "system").
  - apply quiet_bind; [apply quiet_getitem | intro; apply quiet_ret].
  - apply quiet_bind; [apply quiet_getitem | intro content].
    apply quiet_bind; [apply quiet_py_iter | intro parts].
    apply quiet_for_each. apply quiet_process_part.
Qed.

Lemma quiet_process_messages (messages : pyval) :
  quiet_or_invalid_format (process_messages py_str messages).
Proof.
  unfold process_messages.
  apply quiet_bind; [apply quiet_py_iter | intro items].
  apply quiet_for_each. apply quiet_process_message.
Qed.

(** X3: whatever it is given, the translator prints nothing, unless it
    raises [ValueError("Invalid data URL format.")], and then it has printed
    the one line that the URL could not be parsed: the line and the
    exception go together, and a translation that returns is silent. *)
Theorem process_messages_prints_with_invalid_format (messages : pyval) :
  (raises (process_messages py_str messages)
     (ValueError "Invalid data URL format.") <->
   fst (process_messages py_str messages) = [CouldNotParseDataURL]) /\
  (~ raises (process_messages py_str messages)
       (ValueError "Invalid data URL format.") <->
   fst (process_messages py_str messages) = []).
Proof.
  destruct (quiet_process_messages messages) as [[Hout Hexn] | ->].
  - rewrite Hout. split; split; try tauto; discriminate.
  - split; split; try reflexivity; try discriminate.
    intro H. exfalso. apply H. reflexivity.
Qed.

Lemma process_messages_returns_silent (messages : pyval) (prompts : list pyval) :
  returns (process_messages py_str messages) prompts ->
  process_messages py_str messages = ret prompts.
Proof.
  intro H. destruct (quiet_process_messages messages) as [[Hout _] | E].
  - destruct (process_messages py_str messages) as [out r].
    unfold returns in H. cbn in H, Hout. subst. reflexivity.
  - rewrite E in H. discriminate H.
Qed.

(** An item on which the body raises, reached after the items before it
    have been processed, makes the loop raise the same. *)
Lemma for_each_raises_at {A S} (xs ys : list A) (x : A) (body : A -> S -> M S)
    (st st' : S) (e : exn) :
  returns (for_each xs body st) st' ->
  raises (body x st') e ->
  raises (for_each (xs ++ x :: ys) body st) e.
Proof.
  intros Hxs Hx. rewrite for_each_app.
  apply (bind_returns_raises _ _ _ _ Hxs). cbn [for_each].
  apply bind_raises. exact Hx.
Qed.

(** X4: a message of a role other than ["system"] whose content is a
    string is not a message with one text: the empty string contributes
    nothing, and any other string makes the translation raise [TypeError],
    its characters being taken for parts. *)
Theorem process_messages_string_content (d : list (string * pyval))
    (role : pyval) (s : string) (pre post : list pyval) :
  lookup "role" d = Some role ->
  eq_str role "system" = false ->
  lookup "content" d = Some (VStr s) ->
  (s = "" ->
   process_messages py_str (VList (pre ++ VDict d :: post)) =
   process_messages py_str (VList (pre ++ post))) /\
  (s <> "" ->
   fails (process_messages py_str (VList (pre ++ VDict d :: post))) /\
   forall prompts,
     returns (process_messages py_str (VList pre)) prompts ->
     raises (process_messages py_str (VList (pre ++ VDict d :: post)))
       TypeError).
Proof.
  intros Hrole Hsys Hcontent.
  assert (Hmsg : forall acc,
             process_message py_str (VDict d) acc =
             for_each (map (fun c => VStr (String c "")) (list_ascii_of_string s))
               process_part acc).
  { intro acc. unfold process_message.
    rewrite (getitem_found _ _ _ Hrole), bind_ret, Hsys.
    rewrite (getitem_found _ _ _ Hcontent), bind_ret.
    unfold py_iter. rewrite bind_ret. reflexivity. }
  split.
  - intros ->. rewrite !process_messages_list, !for_each_app.
    apply bind_ext. intro acc. cbn [for_each]. rewrite Hmsg.
    cbn [list_ascii_of_string map for_each]. rewrite bind_ret. reflexivity.
  - intro Hs.
    assert (Hraise : forall acc,
               raises (process_message py_str (VDict d) acc) TypeError).
    { intro acc. rewrite Hmsg. destruct s as [| c s]; [congruence |].
      reflexivity. }
    split.
    + rewrite process_messages_list. apply for_each_fails_at.
      intro acc. exists TypeError. apply Hraise.
    + intros prompts Hpre. rewrite process_messages_list in *.
      apply (for_each_raises_at _ _ _ _ _ _ _ Hpre). apply Hraise.
Qed.

(** X5: a key that is missing is a [KeyError] naming it, raised when the
    translation reaches the message or the part: ["role"] and ["content"]
    of a message, ["type"] of a part, ["text"] of a text part,
    ["image_url"] and its ["url"] of an image part. *)
Theorem process_messages_missing_key (d : list (string * pyval))
    (pre post prompts : list pyval) :
  returns (process_messages py_str (VList pre)) prompts ->
  let translation := process_messages py_str (VList (pre ++ VDict d :: post)) in
  (lookup "role" d = None -> raises translation (KeyError "role")) /\
  (forall role,
     lookup "role" d = Some role -> lookup "content" d = None ->
     raises translation (KeyError "content")) /\
  (forall before after part prompts',
     is_parts_message (VDict d) (before ++ VDict part :: after) ->
     returns (for_each before process_part prompts) prompts' ->
     (lookup "type" part = None -> raises translation (KeyError "type")) /\
     (lookup "type" part = Some (VStr "text") -> lookup "text" part = None ->
      raises translation (KeyError "text")) /\
     (lookup "type" part = Some (VStr "image_url") ->
      lookup "image_url" part = None ->
      raises translation (KeyError "image_url")) /\
     (forall image_url,
        lookup "type" part = Some (VStr "image_url") ->
        lookup "image_url" part = Some (VDict image_url) ->
        lookup "url" image_url = None ->
        raises translation (KeyError "url"))).
Proof.
  intros Hpre translation. unfold translation.
  rewrite process_messages_list in *.
  assert (Hat : forall e,
             raises (process_message py_str (VDict d) prompts) e ->
             raises (for_each (pre ++ VDict d :: post)
                       (process_message py_str) []) e)
    by (intros e He; exact (for_each_raises_at _ _ _ _ _ _ _ Hpre He)).
  split; [| split].
  - intro Hrole. apply Hat. unfold process_message, getitem.
    rewrite Hrole. reflexivity.
  - intros role Hrole Hcontent. apply Hat. unfold process_message.
    rewrite (getitem_found _ _ _ Hrole), bind_ret.
    unfold getitem. rewrite Hcontent.
    destruct (eq_str role "system"); reflexivity.
  - intros before after part prompts' Hmsg Hbefore.
    assert (Hpart : forall e,
               raises (process_part (VDict part) prompts') e ->
               raises (for_each (pre ++ VDict d :: post)
                         (process_message py_str) []) e).
    { intros e He. apply Hat. rewrite (process_message_parts _ _ _ _ Hmsg).
      exact (for_each_raises_at _ _ _ _ _ _ _ Hbefore He). }
    split; [| split; [| split]].
    + intro Htype. apply Hpart. unfold process_part, getitem.
      rewrite Htype. reflexivity.
    + intros Htype Htext. apply Hpart. unfold process_part.
      rewrite (getitem_found _ _ _ Htype), bind_ret.
      unfold getitem. rewrite Htext. reflexivity.
    + intros Htype Himage. apply Hpart. unfold process_part.
      rewrite (getitem_found _ _ _ Htype), bind_ret.
      unfold getitem. rewrite Himage. reflexivity.
    + intros image_url Htype Himage Hurl. apply Hpart. unfold process_part.
      rewrite (getitem_found _ _ _ Htype), bind_ret.
      change (eq_str (VStr "image_url") "text") with false.
      change (eq_str (VStr "image_url") "image_url") with true. cbv iota.
      rewrite (getitem_found _ _ _ Himage), bind_ret.
      unfold getitem. rewrite Hurl. reflexivity.
Qed.

End TranslatorOutput.

(** ** What [base64_to_blob] accepts *)

Lemma list_ascii_of_string_app (a b : string) :
  list_ascii_of_string (a ++ b) = list_ascii_of_string a ++ list_ascii_of_string b.
Proof. induction a as [| c a IH]; cbn; [| rewrite IH]; reflexivity. Qed.

Lemma is_newline_eq (c : ascii) : is_newline c = true -> c = "010"%char.
Proof. apply Ascii.eqb_eq. Qed.

(** The greedy [.+] takes everything up to the first line feed. *)
Lemma dot_star_split (s : string) :
  exists rest,
    s = (dot_star s ++ rest)%string /\
    no_newline (dot_star s) = true /\
    (rest = "" \/ exists junk, rest = String "010" junk).
Proof.
  induction s as [| c s (rest & Hs & Hplain & Hrest)]; cbn [dot_star].
  - exists "". auto.
  - destruct (is_newline c) eqn:Hc.
    + exists (String c s). apply is_newline_eq in Hc. subst c.
      repeat split. right. exists s. reflexivity.
    + exists rest. cbn [append]. rewrite <- Hs.
      repeat split; [| exact Hrest].
      unfold no_newline in *. cbn. rewrite Hc. exact Hplain.
Qed.

Lemma after_mime_split (subtype s m b : string) :
  after_mime subtype s = Some (m, b) ->
  m = ("image/" ++ subtype)%string /\ b <> "" /\ no_newline b = true /\
  exists rest,
    s = (";base64," ++ b ++ rest)%string /\
    (rest = "" \/ exists junk, rest = String "010" junk).
Proof.
  unfold after_mime. intro H.
  destruct (strip_prefix ";base64," s) as [payload |] eqn:Ep; [| discriminate].
  unfold dot_plus in H.
  destruct (dot_star_split payload) as (rest & Hs & Hplain & Hrest).
  destruct (dot_star payload) as [| c b'] eqn:Ed; [discriminate |].
  injection H as <- <-. apply strip_prefix_inv in Ep.
  repeat split; [discriminate | exact Hplain |].
  exists rest. rewrite Ep, Hs. auto.
Qed.

Lemma dot_plus_lazy_split (s : string) :
  forall taken m b,
    dot_plus_lazy after_mime taken s = Some (m, b) ->
    exists more rest,
      more <> "" /\ no_newline more = true /\
      b <> "" /\ no_newline b = true /\
      m = ("image/" ++ taken ++ more)%string /\
      s = (more ++ ";base64," ++ b ++ rest)%string /\
      (rest = "" \/ exists junk, rest = String "010" junk).
Proof.
  induction s as [| c s IH]; intros taken m b H; cbn [dot_plus_lazy] in H;
    [discriminate |].
  destruct (is_newline c) eqn:Hc; [discriminate |].
  destruct (after_mime (taken ++ String c "") s) as [[m' b'] |] eqn:Ek.
  - injection H as -> ->.
    apply after_mime_split in Ek.
    destruct Ek as (-> & Hb & Hplain & rest & -> & Hrest).
    exists (String c ""), rest.
    repeat split; try assumption; try discriminate.
    unfold no_newline. cbn. rewrite Hc. reflexivity.
  - apply IH in H.
    destruct H as (more & rest & _ & Hmore & Hb & Hplain & -> & -> & Hrest).
    exists (String c more), rest.
    repeat split; try assumption; try discriminate.
    + unfold no_newline in *. cbn. rewrite Hc. exact Hmore.
    + rewrite append_assoc. reflexivity.
Qed.

(** X6: when [base64_to_blob] returns, its argument is a string
    [data:image/<subtype>;base64,<payload>] with a subtype and a payload
    that are not empty and hold no line feed, followed by nothing or by a
    line feed and anything; the result is [{mime_type, data}] with
    [image/<subtype>] and the bytes that the payload decodes to. *)
Theorem base64_to_blob_returns_inv (v r : pyval) :
  returns (base64_to_blob v) r ->
  exists subtype payload rest data,
    v = VStr ("data:image/" ++ subtype ++ ";base64," ++ payload ++ rest) /\
    subtype <> "" /\ no_newline subtype = true /\
    payload <> "" /\ no_newline payload = true /\
    (rest = "" \/ exists junk, rest = String "010" junk) /\
    returns (b64decode payload) data /\
    r = VDict [("mime_type", VStr ("image/" ++ subtype)%string);
               ("data", VBytes data)].
Proof.
  unfold base64_to_blob. intro H.
  destruct v; try discriminate H.
  destruct (match_data_url s) as [[m b] |] eqn:E; [| discriminate H].
  apply bind_returns_inv in H. destruct H as (data & Hdata & Hr).
  unfold returns in Hr. cbn in Hr. injection Hr as <-.
  unfold match_data_url in E.
  destruct (strip_prefix "data:image/" s) as [s' |] eqn:Ep; [| discriminate].
  apply strip_prefix_inv in Ep. apply dot_plus_lazy_split in E.
  destruct E as (more & rest & Hm & Hmore & Hb & Hplain & -> & -> & Hrest).
  exists more, b, rest, data. subst s. repeat split; assumption.
Qed.

(** A literal that holds no line feed matches or fails alike when a line
    feed and anything are appended to the string. *)
Lemma strip_prefix_line_feed (p s junk : string) :
  no_newline p = true ->
  strip_prefix p (s ++ String "010" junk) =
  match strip_prefix p s with
  | Some r => Some (r ++ String "010" junk)%string
  | None => None
  end.
Proof.
  intro Hp. revert s. induction p as [| a p IH]; intro s; [reflexivity |].
  unfold no_newline in Hp. cbn in Hp. apply andb_prop in Hp.
  destruct Hp as [Ha Hp]. apply negb_true_iff in Ha.
  destruct s as [| b s]; cbn [append strip_prefix].
  - unfold is_newline in Ha. rewrite Ha. reflexivity.
  - destruct (Ascii.eqb a b); [apply IH; exact Hp | reflexivity].
Qed.

Lemma dot_star_line_feed (s junk : string) :
  dot_star (s ++ String "010" junk) = dot_star s.
Proof.
  induction s as [| c s IH]; cbn [append dot_star]; [reflexivity |].
  rewrite IH. reflexivity.
Qed.

Lemma after_mime_line_feed (taken s junk : string) :
  after_mime taken (s ++ String "010" junk) = after_mime taken s.
Proof.
  unfold after_mime. rewrite strip_prefix_line_feed by reflexivity.
  destruct (strip_prefix ";base64," s) as [payload |]; [| reflexivity].
  unfold dot_plus. rewrite dot_star_line_feed. reflexivity.
Qed.

Lemma dot_plus_lazy_line_feed (s junk : string) :
  forall taken,
    dot_plus_lazy after_mime taken (s ++ String "010" junk) =
    dot_plus_lazy after_mime taken s.
Proof.
  induction s as [| c s IH]; intro taken; cbn [append dot_plus_lazy];
    [reflexivity |].
  rewrite after_mime_line_feed, IH. reflexivity.
Qed.

(** X7: the pattern does not look past a line feed: a line feed and
    whatever follows it, appended to any string, change nothing to what
    [base64_to_blob] prints, returns or raises. *)
Theorem base64_to_blob_ignores_after_line_feed (s junk : string) :
  base64_to_blob (VStr (s ++ String "010" junk)) = base64_to_blob (VStr s).
Proof.
  unfold base64_to_blob, match_data_url.
  rewrite strip_prefix_line_feed by reflexivity.
  destruct (strip_prefix "data:image/" s) as [rest |]; [| reflexivity].
  rewrite dot_plus_lazy_line_feed. reflexivity.
Qed.

(** A character that is neither a symbol nor the pad is passed over by
    the decoding loop, wherever it stands. *)
Lemma a2b_loop_skips (before after : list ascii) (c : ascii) :
  is_skipped c = true ->
  forall quad_pos leftchar pads bin_data,
    a2b_loop (before ++ c :: after) quad_pos leftchar pads bin_data =
    a2b_loop (before ++ after) quad_pos leftchar pads bin_data.
Proof.
  intro Hc. unfold is_skipped, is_pad in Hc. apply andb_prop in Hc.
  destruct Hc as [Hpad Htable]. apply negb_true_iff in Hpad.
  induction before as [| x before IH];
    intros quad_pos leftchar pads bin_data; cbn [app a2b_loop].
  - rewrite Hpad, Htable. reflexivity.
  - destruct (Ascii.eqb x BASE64_PAD).
    + destruct (2 <=? quad_pos)%nat; [| apply IH].
      destruct (4 <=? quad_pos + S pads)%nat; [reflexivity | apply IH].
    + destruct (64 <=? table_a2b_base64 x)%N; [apply IH |].
      destruct quad_pos as [| [| [| quad_pos]]]; apply IH.
Qed.

Lemma b64decode_skips (before after : string) (c : ascii) :
  is_ascii c = true ->
  is_skipped c = true ->
  b64decode (before ++ String c after) = b64decode (before ++ after).
Proof.
  intros Hascii Hc. unfold b64decode, a2b_base64.
  rewrite !list_ascii_of_string_app. cbn [list_ascii_of_string].
  rewrite !forallb_app. cbn [forallb]. rewrite Hascii. cbn [andb].
  rewrite (a2b_loop_skips _ _ _ Hc). reflexivity.
Qed.

Lemma dot_plus_plain (b : string) :
  b <> "" -> no_newline b = true -> dot_plus b = Some b.
Proof.
  intros Hb Hplain. unfold dot_plus. rewrite (dot_star_plain _ Hplain).
  destruct b; [congruence | reflexivity].
Qed.

Lemma match_data_url_payload (subtype payload : string) :
  plain_subtype subtype = true ->
  payload <> "" ->
  no_newline payload = true ->
  match_data_url ("data:image/" ++ subtype ++ ";base64," ++ payload) =
  Some (("image/" ++ subtype)%string, payload).
Proof.
  intros Hsub Hne Hplain. unfold plain_subtype in Hsub.
  apply andb_prop in Hsub. destruct Hsub as [Hs Hchars].
  apply negb_true_iff in Hs. apply String.eqb_neq in Hs.
  unfold match_data_url.
  change (strip_prefix "data:image/"
            ("data:image/" ++ subtype ++ ";base64," ++ payload))
    with (Some (subtype ++ ";base64," ++ payload)%string).
  cbv beta iota.
  rewrite (dot_plus_lazy_plain _ _ Hs Hchars (dot_plus_plain _ Hne Hplain)).
  reflexivity.
Qed.

(** X8: the payload is decoded leniently: an ASCII character that is
    neither of the base64 alphabet nor the pad (a space, a dot), standing
    anywhere in the payload, is passed over, and the URL decodes as it does
    without it. *)
Theorem base64_to_blob_skips_other_characters (subtype before after : string)
    (c : ascii) :
  plain_subtype subtype = true ->
  (before ++ after)%string <> "" ->
  no_newline before = true ->
  no_newline after = true ->
  is_newline c = false ->
  is_ascii c = true ->
  is_skipped c = true ->
  base64_to_blob
    (VStr ("data:image/" ++ subtype ++ ";base64," ++ before ++ String c after)) =
  base64_to_blob
    (VStr ("data:image/" ++ subtype ++ ";base64," ++ before ++ after)).
Proof.
  intros Hsub Hne Hbefore Hafter Hnl Hascii Hc. unfold base64_to_blob.
  rewrite !match_data_url_payload; try assumption.
  - rewrite (b64decode_skips _ _ _ Hascii Hc). reflexivity.
  - unfold no_newline in *. rewrite list_ascii_of_string_app, forallb_app.
    rewrite Hbefore, Hafter. reflexivity.
  - destruct before; discriminate.
  - unfold no_newline in *. rewrite list_ascii_of_string_app, forallb_app.
    cbn. rewrite Hbefore, Hnl, Hafter. reflexivity.
Qed.

(** Without a pad, the loop ends at the end of the input, and returns when
    the symbols read complete the quads. *)
Lemma a2b_loop_unpadded (cs : list ascii) :
  forallb (fun c => negb (is_pad c)) cs = true ->
  forall quad_pos leftchar pads bin_data,
    quad_pos < 4 ->
    ((exists data, a2b_loop cs quad_pos leftchar pads bin_data = inr data) <->
     (quad_pos + List.length (filter is_symbol cs)) mod 4 = 0).
Proof.
  induction cs as [| c cs IH]; intros Hcs quad_pos leftchar pads bin_data Hq.
  - cbn [a2b_loop filter List.length]. rewrite Nat.add_0_r.
    rewrite (Nat.mod_small _ _ Hq).
    destruct quad_pos as [| [| quad_pos]]; split;
      try discriminate; try (intros [data H]; discriminate H); eauto.
  - cbn [forallb] in Hcs. apply andb_prop in Hcs. destruct Hcs as [Hc Hcs].
    cbn [a2b_loop filter]. unfold is_symbol. rewrite Hc.
    unfold is_pad in Hc. apply negb_true_iff in Hc. rewrite Hc. cbn [andb].
    rewrite N.leb_antisym. destruct (table_a2b_base64 c <? 64)%N; cbn [negb].
    + cbn [List.length].
      set (n := List.length (filter _ cs)) in *.
      destruct quad_pos as [| [| [| [| quad_pos]]]]; try lia;
        rewrite IH by (assumption || lia); fold n.
      * replace (0 + S n) with (1 + n) by lia. reflexivity.
      * replace (1 + S n) with (2 + n) by lia. reflexivity.
      * replace (2 + S n) with (3 + n) by lia. reflexivity.
      * replace (3 + S n) with (0 + n + 1 * 4) by lia.
        rewrite Nat.Div0.mod_add. reflexivity.
    + apply IH; assumption.
Qed.

(** X9: a payload without pad decodes when, and only when, the number of
    its symbols of the alphabet is a multiple of four; otherwise
    [base64_to_blob] raises [binascii.Error], and prints nothing. *)
Theorem base64_to_blob_unpadded (subtype payload : string) :
  plain_subtype subtype = true ->
  payload <> "" ->
  no_newline payload = true ->
  all_ascii payload = true ->
  no_pad payload = true ->
  let blob :=
    base64_to_blob (VStr ("data:image/" ++ subtype ++ ";base64," ++ payload)) in
  (symbol_count payload mod 4 = 0 ->
   exists data,
     blob = ret (VDict [("mime_type", VStr ("image/" ++ subtype)%string);
                        ("data", VBytes data)])) /\
  (symbol_count payload mod 4 <> 0 ->
   exists msg, blob = raise (BinasciiError msg)).
Proof.
  intros Hsub Hne Hplain Hascii Hpad blob. unfold blob, base64_to_blob.
  rewrite (match_data_url_payload _ _ Hsub Hne Hplain).
  unfold b64decode, a2b_base64, all_ascii in *. rewrite Hascii.
  pose proof (a2b_loop_unpadded _ Hpad 0 0%N 0 [] ltac:(lia)) as Hloop.
  cbn [Nat.add] in Hloop. fold (symbol_count payload) in Hloop.
  destruct (a2b_loop (list_ascii_of_string payload) 0 0%N 0 []) as [e | data]
    eqn:E.
  - split.
    + intro Hcount. apply Hloop in Hcount. destruct Hcount as [data H].
      discriminate H.
    + intros _. apply a2b_loop_raises_binascii in E. destruct E as [msg ->].
      exists msg. reflexivity.
  - split.
    + intros _. exists data. reflexivity.
    + intro Hcount. exfalso. apply Hcount. apply Hloop. eauto.
Qed.

(** ** What the extractor prints *)

Lemma existsb_eqb_In (name : string) (names : list string) :
  existsb (String.eqb name) names = true <-> In name names.
Proof.
  rewrite existsb_exists. split.
  - intros (x & Hx & E). apply String.eqb_eq in E. subst x. exact Hx.
  - intro H. exists name. split; [exact H | apply String.eqb_refl].
Qed.

(** The loop over the fields adds the reportable names that are new, at
    the end. *)
Lemma scan_fields_spec (fields : list (string * pyval)) :
  forall found,
    NoDup found ->
    NoDup (scan_fields fields found) /\
    forall name,
      In name (scan_fields fields found) <->
      In name found \/
      exists value, In (name, value) fields /\ reportable (name, value) = true.
Proof.
  induction fields as [| [field_name field_value] fields IH]; intros found Hnd.
  - cbn [scan_fields]. split; [exact Hnd |]. intro name. split; [auto |].
    intros [H | (value & [] & _)]. exact H.
  - cbn [scan_fields].
    change (negb (is_none field_value)
            && negb (existsb (String.eqb field_name) ["text"; "thought"]))
      with (reportable (field_name, field_value)).
    destruct (reportable (field_name, field_value)) eqn:Hrep.
    + destruct (existsb (String.eqb field_name) found) eqn:Hin.
      * apply existsb_eqb_In in Hin.
        destruct (IH found Hnd) as [Hnd' Hmem]. split; [exact Hnd' |].
        intro name. rewrite Hmem. split.
        -- intros [H | (value & Hv & Hr)]; [auto |].
           right. exists value. split; [right; exact Hv | exact Hr].
        -- intros [H | (value & [E | Hv] & Hr)]; [auto | | eauto].
           injection E as <- <-. auto.
      * assert (Hnew : ~ In field_name found).
        { intro H. apply existsb_eqb_In in H. congruence. }
        assert (Hnd1 : NoDup (found ++ [field_name])).
        { apply NoDup_app; [exact Hnd | repeat constructor; intros [] |].
          intros x Hx [<- | []]. exact (Hnew Hx). }
        destruct (IH _ Hnd1) as [Hnd' Hmem]. split; [exact Hnd' |].
        intro name. rewrite Hmem, in_app_iff. cbn [In]. split.
        -- intros [[H | [<- | []]] | (value & Hv & Hr)]; [auto | | ].
           ++ right. exists field_value. split; [left; reflexivity | exact Hrep].
           ++ right. exists value. split; [right; exact Hv | exact Hr].
        -- intros [H | (value & [E | Hv] & Hr)]; [auto | | eauto].
           injection E as <- <-. auto.
    + destruct (IH found Hnd) as [Hnd' Hmem]. split; [exact Hnd' |].
      intro name. rewrite Hmem. split.
      * intros [H | (value & Hv & Hr)]; [auto |].
        right. exists value. split; [right; exact Hv | exact Hr].
      * intros [H | (value & [E | Hv] & Hr)]; [auto | | eauto].
        injection E as <- <-. congruence.
Qed.

Lemma collected_fields_spec (parts : list pyval) :
  forall found,
    NoDup found ->
    NoDup (fold_left (fun found part => scan_fields (part_fields part) found)
             parts found) /\
    forall name,
      In name (fold_left (fun found part => scan_fields (part_fields part) found)
                 parts found) <->
      In name found \/
      exists part value,
        In part parts /\ In (name, value) (part_fields part) /\
        reportable (name, value) = true.
Proof.
  induction parts as [| part parts IH]; intros found Hnd; cbn [fold_left].
  - split; [exact Hnd |]. intro name. split; [auto |].
    intros [H | (part & value & [] & _)]. exact H.
  - destruct (scan_fields_spec (part_fields part) found Hnd) as [Hnd1 Hmem1].
    destruct (IH _ Hnd1) as [Hnd' Hmem]. split; [exact Hnd' |].
    intro name. rewrite Hmem, Hmem1. split.
    + intros [[H | (value & Hv & Hr)] | (p & value & Hp & Hv & Hr)].
      * auto.
      * right. exists part, value. cbn [In]. auto.
      * right. exists p, value. cbn [In]. auto.
    + intros [H | (p & value & [<- | Hp] & Hv & Hr)]; [auto | eauto | ].
      right. exists p, value. auto.
Qed.

Lemma scan_part_fields (part : pyval) (st : candidate_state) :
  is_instance part = true ->
  exists st',
    scan_part part st = ret st' /\
    non_text_parts_found st' =
    scan_fields (part_fields part) (non_text_parts_found st).
Proof.
  intro Hpart. destruct part as [| | | | | | | | truth fields others];
    try discriminate Hpart.
  unfold scan_part, dict_items. rewrite bind_ret. cbn [part_fields].
  destruct (attr (VObj truth fields others) "text") as [[] |];
    try (eexists; split; reflexivity).
  destruct (match attr (VObj truth fields others) "thought" with
            | Some thought => truthy thought
            | None => false
            end); eexists; split; reflexivity.
Qed.

Lemma scan_parts_fields (parts : list pyval) :
  forallb is_instance parts = true ->
  forall st, exists st',
    for_each parts scan_part st = ret st' /\
    non_text_parts_found st' =
    fold_left (fun found part => scan_fields (part_fields part) found) parts
      (non_text_parts_found st).
Proof.
  induction parts as [| part parts IH]; intros Hparts st;
    cbn [for_each fold_left].
  - exists st. split; reflexivity.
  - cbn [forallb] in Hparts. apply andb_prop in Hparts.
    destruct Hparts as [Hpart Hrest].
    destruct (scan_part_fields part st Hpart) as (st1 & -> & <-).
    rewrite bind_ret. apply IH. exact Hrest.
Qed.

(** One iteration prints the warning that the candidate gives rise to. *)
Lemma scan_candidate_warnings (i : nat) (candidate : pyval)
    (all_texts : list (option string)) :
  sequences_where_present candidate ->
  exists r,
    scan_candidate (i, candidate) all_texts =
    (expected_warnings (i, candidate), inr (all_texts ++ [r])).
Proof.
  intro Hseq. unfold scan_candidate, expected_warnings.
  destruct (has_parts candidate) eqn:Hhas; cbn [negb];
    [| exists None; reflexivity].
  unfold has_parts in Hhas. apply andb_prop in Hhas. destruct Hhas as [_ Hc].
  unfold candidate_parts.
  destruct (attr candidate "content") as [content |] eqn:Hcontent;
    [| discriminate].
  unfold hasattr in Hc.
  destruct (attr content "parts") as [parts |] eqn:Hparts; [| discriminate].
  destruct (Hseq _ _ Hcontent Hparts) as (items & -> & Hinst).
  rewrite (getattr_found _ _ _ Hcontent), bind_ret.
  rewrite (getattr_found _ _ _ Hparts), bind_ret.
  unfold py_iter. rewrite bind_ret.
  destruct (scan_parts_fields items Hinst
              {| candidate_text := ""; any_text_part_found := false;
                 non_text_parts_found := [] |}) as (st & -> & Hfound).
  rewrite bind_ret. cbn [non_text_parts_found] in Hfound.
  fold (non_text_fields items) in Hfound. rewrite Hfound.
  eexists. destruct (non_text_fields items); [rewrite bind_ret |]; reflexivity.
Qed.

Lemma scan_candidates_warnings (candidates : list pyval) :
  Forall sequences_where_present candidates ->
  forall i all_texts, exists texts,
    for_each (combine (seq i (List.length candidates)) candidates)
      scan_candidate all_texts =
    (flat_map expected_warnings
       (combine (seq i (List.length candidates)) candidates),
     inr (all_texts ++ texts)).
Proof.
  induction 1 as [| candidate candidates Hc _ IH]; intros i all_texts.
  - exists []. cbn. rewrite app_nil_r. reflexivity.
  - cbn [List.length seq combine for_each flat_map].
    destruct (scan_candidate_warnings i _ all_texts Hc) as [r ->].
    destruct (IH (S i) (all_texts ++ [r])) as [texts E].
    rewrite bind_step, E. cbn [fst snd]. rewrite <- app_assoc.
    exists (r :: texts). reflexivity.
Qed.

(** X10: on a response whose candidates are a list, the parts of each, if
    it has them, a list of instances, the extractor prints one line for
    each candidate without [content.parts] and one line for each candidate
    whose parts hold a non-text field, in the order of the candidates and
    with their indices, and nothing else.  The fields named are, without
    repetition, the names other than [text] and [thought] under which the
    [__dict__] of some part holds a value other than [None]. *)
Theorem get_text_warnings (response : pyval) (candidates : list pyval) :
  truthy response = true ->
  attr response "candidates" = Some (VList candidates) ->
  Forall sequences_where_present candidates ->
  fst (get_text_from_all_candidates response) =
  flat_map expected_warnings (enumerate candidates) /\
  forall parts,
    NoDup (non_text_fields parts) /\
    forall name,
      In name (non_text_fields parts) <->
      exists part value,
        In part parts /\ In (name, value) (part_fields part) /\
        reportable (name, value) = true.
Proof.
  intros Htrue Hattr Hcs. split.
  - unfold get_text_from_all_candidates, hasattr. rewrite Htrue, Hattr.
    cbn [negb orb]. rewrite (getattr_found _ _ _ Hattr), bind_ret.
    unfold py_iter. rewrite bind_ret. unfold enumerate.
    destruct (scan_candidates_warnings _ Hcs 0 []) as [texts ->]. reflexivity.
  - intro parts.
    destruct (collected_fields_spec parts [] (NoDup_nil _)) as [Hnd Hmem].
    split; [exact Hnd |]. intro name. unfold non_text_fields.
    rewrite Hmem. cbn [In]. tauto.
Qed.

(** ** The reports of [chat_completion] *)

Lemma unreported_bind {A B} (m : M A) (k : A -> M B) :
  no_error_report (fst m) = true ->
  (forall a, no_error_report (fst (k a)) = true) ->
  no_error_report (fst (bind m k)) = true.
Proof.
  intros Hm Hk. destruct m as [out [e | a]]; [exact Hm |].
  rewrite bind_step. cbn [fst] in *. unfold no_error_report in *.
  rewrite forallb_app, Hm. apply Hk.
Qed.

Lemma unreported_for_each {A S} (body : A -> S -> M S) (xs : list A) :
  (forall x st, no_error_report (fst (body x st)) = true) ->
  forall st, no_error_report (fst (for_each xs body st)) = true.
Proof.
  intro Hbody. induction xs as [| x xs IH]; intro st; cbn [for_each].
  - reflexivity.
  - apply unreported_bind; [apply Hbody | exact IH].
Qed.

(** Splits a sequence of binds into its steps, each of which prints no
    report. *)
Ltac unreported :=
  repeat first
    [ reflexivity
    | apply unreported_bind; [| intro]
    | apply unreported_for_each; intros
    | match goal with
      | |- no_error_report (fst (if ?b then _ else _)) = true => destruct b
      | |- no_error_report (fst (match ?x with _ => _ end)) = true => destruct x
      | |- no_error_report (fst (let (_, _) := ?x in _)) = true => destruct x
      end ].

Lemma unreported_getattr (v : pyval) (name : string) :
  no_error_report (fst (getattr v name)) = true.
Proof. unfold getattr. unreported. Qed.

Lemma unreported_py_iter (v : pyval) : no_error_report (fst (py_iter v)) = true.
Proof. unfold py_iter. unreported. Qed.

Lemma unreported_scan_part (part : pyval) (st : candidate_state) :
  no_error_report (fst (scan_part part st)) = true.
Proof. unfold scan_part, dict_items. unreported. Qed.

Lemma unreported_scan_candidate (indexed : nat * pyval)
    (all_texts : list (option string)) :
  no_error_report (fst (scan_candidate indexed all_texts)) = true.
Proof.
  unfold scan_candidate. destruct indexed as [i candidate].
  destruct (negb (has_parts candidate)); [reflexivity |].
  apply unreported_bind; [apply unreported_getattr | intro content].
  apply unreported_bind; [apply unreported_getattr | intro parts].
  apply unreported_bind; [apply unreported_py_iter | intro items].
  apply unreported_bind;
    [apply unreported_for_each; intros; apply unreported_scan_part | intro st].
  destruct (non_text_parts_found st); reflexivity.
Qed.

Lemma unreported_get_text (response : pyval) :
  no_error_report (fst (get_text_from_all_candidates response)) = true.
Proof.
  unfold get_text_from_all_candidates.
  destruct (negb (truthy response) || negb (hasattr response "candidates"));
    [reflexivity |].
  apply unreported_bind; [apply unreported_getattr | intro candidates].
  apply unreported_bind; [apply unreported_py_iter | intro items].
  apply unreported_for_each. intros. apply unreported_scan_candidate.
Qed.

Lemma silent_add_word_count (msg : pyval) (total : Z) :
  fst (add_word_count msg total) = [].
Proof.
  unfold add_word_count, dict_get.
  destruct msg; try reflexivity.
  - destruct (lookup "content" entries) as [content |]; [| reflexivity].
    rewrite bind_ret. unfold split_len.
    destruct content; try reflexivity.
    destruct (attr _ "split"); reflexivity.
  - destruct (attr _ "get"); reflexivity.
Qed.

Lemma unreported_estimate_cost (self : GeminiService) (messages response : pyval) :
  no_error_report (fst (estimate_cost self messages response)) = true.
Proof.
  unfold estimate_cost.
  apply unreported_bind; [apply unreported_py_iter | intro items].
  apply unreported_bind.
  { apply unreported_for_each. intros. rewrite silent_add_word_count.
    reflexivity. }
  intro input_tokens.
  apply unreported_bind; [apply unreported_getattr | intro text].
  apply unreported_bind.
  { unfold split_len. destruct text; try reflexivity.
    destruct (attr _ "split"); reflexivity. }
  intro output_tokens. unfold float_of_int.
  repeat (apply unreported_bind;
          [match goal with |- context [if ?b then _ else _] => destruct b end;
           reflexivity | intro]).
  reflexivity.
Qed.

Section Reports.

Variable py_str : pyval -> string.

Lemma unreported_process_messages (messages : pyval) :
  no_error_report (fst (process_messages py_str messages)) = true.
Proof.
  destruct (quiet_process_messages py_str messages) as [[-> _] | ->];
    reflexivity.
Qed.

(** X11: every call of [chat_completion] either returns, having printed
    no error report, or raises an exception that it has reported exactly
    once, in the last line printed: no exception is swallowed, reported
    twice, or raised without a report. *)
Theorem chat_completion_reports_once (self : GeminiService) (messages : pyval)
    (n : Z) (temperature : option float) (max_tokens : option Z)
    (top_p : option float) (kwargs : list (string * pyval)) :
  exists out,
    no_error_report out = true /\
    ((exists result,
        chat_completion py_str self messages n temperature max_tokens top_p
          kwargs = (out, inr result)) \/
     (exists e,
        chat_completion py_str self messages n temperature max_tokens top_p
          kwargs = (out ++ [ErrorInChatCompletion e], inl e))).
Proof.
  unfold chat_completion.
  match goal with
  | |- context [try_except ?body _] =>
      assert (H : no_error_report (fst body) = true); [| destruct body as [out r]]
  end.
  - apply unreported_bind; [apply unreported_process_messages | intro].
    apply unreported_bind; [reflexivity | intro response].
    apply unreported_bind.
    { destruct (cost_tracking_enabled self);
        [apply unreported_estimate_cost | reflexivity]. }
    intro cost.
    apply unreported_bind; [apply unreported_get_text | intro; reflexivity].
  - exists out. split; [exact H |].
    destruct r as [e | result]; [right; exists e | left; exists result];
      reflexivity.
Qed.

(** X12: when the translation succeeds and the provider raises, the call
    prints the report of that exception and nothing else, and raises that
    same exception, with cost tracking or without: no warning of the
    extractor is printed and nothing is returned. *)
Theorem chat_completion_provider_error (self : GeminiService)
    (messages : pyval) (n : Z) (temperature : option float)
    (max_tokens : option Z) (top_p : option float)
    (kwargs : list (string * pyval)) (gemini_messages : list pyval) (e : exn) :
  returns (process_messages py_str messages) gemini_messages ->
  generate_content self gemini_messages
    (generation_config self temperature max_tokens top_p) = inl e ->
  chat_completion py_str self messages n temperature max_tokens top_p kwargs =
  ([ErrorInChatCompletion e], inl e).
Proof.
  intros Hpm Hgen. unfold chat_completion.
  rewrite (process_messages_returns_silent _ _ _ Hpm), bind_ret.
  cbv zeta. rewrite Hgen. reflexivity.
Qed.

End Reports.

(** ** Cost tracking and the shape of the messages *)

(** A loop that returns has had its body return on every item. *)
Lemma for_each_returns_all {A S} (body : A -> S -> M S) (xs : list A) :
  forall st st',
    returns (for_each xs body st) st' ->
    Forall (fun x => exists s s', returns (body x s) s') xs.
Proof.
  induction xs as [| x xs IH]; intros st st' H; [constructor |].
  cbn [for_each] in H. apply bind_returns_inv in H.
  destruct H as (s1 & Hx & Hxs). constructor; [eauto | exact (IH _ _ Hxs)].
Qed.

Lemma not_returns_raise {A} (e : exn) (a : A) : ~ returns (raise e) a.
Proof. discriminate. Qed.

Lemma split_len_returns_inv {A} (content : pyval) (k : Z -> M A) (a : A) :
  returns (bind (split_len content) k) a ->
  (exists s, content = VStr s) \/ (exists bs, content = VBytes bs).
Proof.
  destruct content; try discriminate; eauto.
  unfold split_len. destruct (attr _ "split"); discriminate.
Qed.

Section CostAndMessages.

Variable py_str : pyval -> string.

(** What the translator and the word count both accept. *)
Lemma both_accept_countable (msg : pyval) (acc acc' : list pyval)
    (total total' : Z) :
  returns (process_message py_str msg acc) acc' ->
  returns (add_word_count msg total) total' ->
  cost_countable msg.
Proof.
  intros Hpm Hwc. destruct msg as [| | | | | | | d |]; try discriminate Hpm.
  unfold process_message, getitem in Hpm.
  destruct (lookup "role" d) as [role |] eqn:Hrole; [| discriminate Hpm].
  rewrite bind_ret in Hpm.
  destruct (lookup "content" d) as [content |] eqn:Hcontent;
    [| destruct (eq_str role "system"); discriminate Hpm].
  unfold add_word_count, dict_get in Hwc. rewrite Hcontent, bind_ret in Hwc.
  pose proof (split_len_returns_inv _ _ _ Hwc) as Hstr.
  exists d, role, content. repeat split; try assumption.
  intro Hsys. rewrite Hsys, bind_ret in Hpm.
  destruct Hstr as [[s ->] | [bs ->]].
  - destruct s as [| c s]; [left; reflexivity | discriminate Hpm].
  - destruct bs as [| b bs]; [right; reflexivity | discriminate Hpm].
Qed.

(** X13: with cost tracking enabled, a call that returns was given a list
    of dictionaries whose contents are strings (or bytes), those of the
    roles other than ["system"] being empty: the call never returns for a
    conversation in which a user message has any content. *)
Theorem cost_tracking_returns_only_without_parts (self : GeminiService)
    (messages : list pyval) (n : Z) (temperature : option float)
    (max_tokens : option Z) (top_p : option float)
    (kwargs : list (string * pyval)) (result : list (option string) * float) :
  cost_tracking_enabled self = true ->
  returns (chat_completion py_str self (VList messages) n temperature
             max_tokens top_p kwargs) result ->
  Forall cost_countable messages.
Proof.
  intros Hon H. unfold chat_completion in H.
  apply try_except_returns in H; [| intro e; apply reraise_fails].
  rewrite Hon in H.
  apply bind_returns_inv in H. destruct H as (gemini_messages & Hpm & H).
  apply bind_returns_inv in H. destruct H as (response & _ & H).
  apply bind_returns_inv in H. destruct H as (cost & Hcost & _).
  rewrite process_messages_list in Hpm.
  apply for_each_returns_all in Hpm.
  unfold estimate_cost, py_iter in Hcost. rewrite bind_ret in Hcost.
  apply bind_returns_inv in Hcost. destruct Hcost as (tokens & Hwc & _).
  apply for_each_returns_all in Hwc.
  rewrite Forall_forall in *. intros msg Hin.
  destruct (Hpm msg Hin) as (acc & acc' & Hm).
  destruct (Hwc msg Hin) as (total & total' & Hw).
  exact (both_accept_countable _ _ _ _ _ Hm Hw).
Qed.

(** X14: with cost tracking enabled, a single bare message, which the
    translator accepts in place of a list, always makes the call raise:
    the word count iterates over the keys of the dictionary, and the first
    key has no [get]. *)
Theorem cost_tracking_rejects_bare_message (self : GeminiService)
    (d : list (string * pyval)) (n : Z) (temperature : option float)
    (max_tokens : option Z) (top_p : option float)
    (kwargs : list (string * pyval)) :
  cost_tracking_enabled self = true ->
  fails (chat_completion py_str self (VDict d) n temperature max_tokens top_p
           kwargs) /\
  forall gemini_messages response,
    returns (process_messages py_str (VDict d)) gemini_messages ->
    generate_content self gemini_messages
      (generation_config self temperature max_tokens top_p) = inr response ->
    chat_completion py_str self (VDict d) n temperature max_tokens top_p kwargs =
    ([ErrorInChatCompletion (AttributeError "get")],
     inl (AttributeError "get")).
Proof.
  intro Hon.
  assert (Hcost : forall response, d <> [] ->
             estimate_cost self (VDict d) response =
             raise (AttributeError "get")).
  { intros response Hd. destruct d as [| [k v] d]; [congruence |].
    reflexivity. }
  split.
  - destruct d as [| [k v] d].
    + apply chat_completion_translation_fails.
      exists (KeyError "role"). reflexivity.
    + unfold chat_completion.
      apply try_except_fails; [| intro e; apply reraise_fails].
      apply bind_all_fail. intro gemini_messages.
      apply bind_all_fail. intro response.
      apply bind_fails. rewrite Hon, Hcost by discriminate.
      exists (AttributeError "get"). reflexivity.
  - intros gemini_messages response Hpm Hgen.
    assert (Hd : d <> []) by (intros ->; discriminate Hpm).
    unfold chat_completion.
    rewrite (process_messages_returns_silent _ _ _ Hpm), bind_ret.
    cbv zeta. rewrite Hgen.
    change (lift (inr response)) with (ret response). rewrite bind_ret.
    rewrite Hon, (Hcost _ Hd). reflexivity.
Qed.

Lemma float_of_int_returns (z : Z) (f : float) :
  returns (float_of_int z) f -> float_of_int z = ret f.
Proof.
  unfold float_of_int.
  destruct (is_infinity _); [discriminate |].
  intro H. injection H as <-. reflexivity.
Qed.

Lemma system_messages_translate (messages : list pyval)
    (contents : list string) :
  Forall2 is_system_message messages contents ->
  Forall2 is_text_message messages (map SystemText contents) /\
  Forall2 has_string_content messages contents.
Proof.
  induction 1 as [| msg c messages contents (d & -> & Hrole & Hc) _ [IH1 IH2]].
  - split; constructor.
  - split; constructor; try assumption.
    + apply IsSystemText; assumption.
    + exists d. auto.
Qed.

(** X15: with cost tracking enabled, on a conversation of system messages
    with string contents, when the provider answers a response whose
    [text] is a string, the call returns the extracted texts and the cost
    [words(contents) * input_cost + words(text) * output_cost], the counts
    converted to doubles and the unit costs read from [MODEL_COSTS] under
    the model name, [0.0] where absent. *)
Theorem chat_completion_cost (self : GeminiService) (messages : list pyval)
    (contents : list string) (n : Z) (temperature : option float)
    (max_tokens : option Z) (top_p : option float)
    (kwargs : list (string * pyval)) (response : pyval) (text : string)
    (texts : list (option string)) (input_total output_total : float) :
  cost_tracking_enabled self = true ->
  Forall2 is_system_message messages contents ->
  generate_content self
    (map (fun c => VStr ("Your general instruction: " ++ c)%string) contents)
    (generation_config self temperature max_tokens top_p) = inr response ->
  attr response "text" = Some (VStr text) ->
  returns (get_text_from_all_candidates response) texts ->
  returns (float_of_int (word_total contents)) input_total ->
  returns (float_of_int (Z.of_nat (count_words text))) output_total ->
  let model_costs :=
    match MODEL_COSTS (config self) with Some t => t | None => [] end in
  returns
    (chat_completion py_str self (VList messages) n temperature max_tokens
       top_p kwargs)
    (texts,
     (input_total * unit_cost model_costs (model_name self) input_cost +
      output_total * unit_cost model_costs (model_name self) output_cost)%float).
Proof.
  intros Hon Hmsgs Hgen Htext Hget Hin Hout model_costs.
  destruct (system_messages_translate _ _ Hmsgs) as [Htr Hstr].
  unfold chat_completion.
  apply try_except_returns; [intro e; apply reraise_fails |].
  rewrite process_messages_list, (for_each_text_messages py_str _ _ Htr []).
  rewrite bind_ret. cbn [app].
  replace (flat_map flattened (map SystemText contents))
    with (map (fun c => VStr ("Your general instruction: " ++ c)%string) contents)
    by (clear; induction contents as [| c cs IH]; cbn;
        [| rewrite <- IH]; reflexivity).
  cbv zeta. rewrite Hgen.
  change (lift (inr response)) with (ret response). rewrite bind_ret, Hon.
  rewrite (estimate_cost_string_contents _ _ _ _ _ Hstr Htext).
  rewrite (float_of_int_returns _ _ Hin), bind_ret.
  rewrite (float_of_int_returns _ _ Hout), bind_ret.
  cbv zeta. rewrite bind_ret.
  apply (bind_returns _ _ _ _ Hget). reflexivity.
Qed.

End CostAndMessages.

(** ** The candidates one by one *)

Lemma snd_bind {A B} (m : M A) (k : A -> M B) :
  snd (bind m k) =
  match snd m with
  | inl e => inl e
  | inr a => snd (k a)
  end.
Proof. destruct m as [out [e | a]]; [| rewrite bind_step]; reflexivity. Qed.

(** What one iteration appends does not depend on the index of the
    candidate nor on the texts collected so far. *)
Lemma scan_candidate_result (i : nat) (candidate : pyval)
    (all_texts : list (option string)) :
  snd (scan_candidate (i, candidate) all_texts) =
  match snd (scan_candidate (0, candidate) []) with
  | inl e => inl e
  | inr r => inr (all_texts ++ r)
  end.
Proof.
  unfold scan_candidate. destruct (negb (has_parts candidate)); [reflexivity |].
  repeat (rewrite !snd_bind;
          match goal with
          | |- context [snd ?m] => destruct (snd m) as [e | ?]; [reflexivity |]
          end).
  rewrite !snd_bind.
  match goal with
  | |- context [non_text_parts_found ?st] =>
      destruct (non_text_parts_found st)
  end; reflexivity.
Qed.

Lemma scan_candidates_result (candidates : list pyval) :
  forall i all_texts,
    snd (for_each (combine (seq i (List.length candidates)) candidates)
           scan_candidate all_texts) =
    match snd (for_each (enumerate candidates) scan_candidate []) with
    | inl e => inl e
    | inr texts => inr (all_texts ++ texts)
    end.
Proof.
  unfold enumerate.
  induction candidates as [| candidate candidates IH]; intros i all_texts.
  - cbn. rewrite app_nil_r. reflexivity.
  - cbn [List.length seq combine for_each]. rewrite !snd_bind.
    rewrite (scan_candidate_result i candidate all_texts).
    destruct (snd (scan_candidate (0, candidate) [])) as [e | r];
      [reflexivity |].
    rewrite (IH (S i) (all_texts ++ r)), (IH 1 r).
    destruct (snd (for_each (combine (seq 0 (List.length candidates)) candidates)
                     scan_candidate [])) as [e | texts]; [reflexivity |].
    rewrite app_assoc. reflexivity.
Qed.

Lemma scan_candidates_app (before after : list pyval) :
  snd (for_each (enumerate (before ++ after)) scan_candidate []) =
  both_results (snd (for_each (enumerate before) scan_candidate []))
    (snd (for_each (enumerate after) scan_candidate [])).
Proof.
  unfold enumerate. rewrite length_app, seq_app.
  assert (Hcombine :
            combine (seq 0 (List.length before) ++
                     seq (0 + List.length before) (List.length after))
              (before ++ after) =
            combine (seq 0 (List.length before)) before ++
            combine (seq (0 + List.length before) (List.length after)) after).
  { generalize 0. induction before as [| x before IH]; intro i; cbn.
    - rewrite Nat.add_0_r. reflexivity.
    - f_equal. rewrite <- Nat.add_succ_comm. apply IH. }
  rewrite Hcombine, for_each_app, snd_bind.
  fold (enumerate before). unfold both_results.
  destruct (snd (for_each (enumerate before) scan_candidate [])) as [e | texts];
    [reflexivity |].
  rewrite scan_candidates_result. reflexivity.
Qed.

(** X16: the texts extracted from a response are those of its first
    candidates followed by those of the others, whatever the indices: the
    text of a candidate does not depend on the candidates around it, and an
    exception on an earlier candidate is the exception of the whole. *)
Theorem get_text_app (response first second : pyval)
    (before after : list pyval) :
  truthy response = true ->
  truthy first = true ->
  truthy second = true ->
  attr response "candidates" = Some (VList (before ++ after)) ->
  attr first "candidates" = Some (VList before) ->
  attr second "candidates" = Some (VList after) ->
  snd (get_text_from_all_candidates response) =
  both_results (snd (get_text_from_all_candidates first))
    (snd (get_text_from_all_candidates second)).
Proof.
  intros Ht Ht1 Ht2 Ha Ha1 Ha2.
  assert (Hget : forall r cs,
             truthy r = true -> attr r "candidates" = Some (VList cs) ->
             snd (get_text_from_all_candidates r) =
             snd (for_each (enumerate cs) scan_candidate [])).
  { intros r cs Hr Hcs. unfold get_text_from_all_candidates, hasattr.
    rewrite Hr, Hcs. cbn [negb orb].
    rewrite (getattr_found _ _ _ Hcs), bind_ret.
    unfold py_iter. rewrite bind_ret. reflexivity. }
  rewrite (Hget _ _ Ht Ha), (Hget _ _ Ht1 Ha1), (Hget _ _ Ht2 Ha2).
  apply scan_candidates_app.
Qed.

Section CostAndResponse.

Variable py_str : pyval -> string.

(** X17: with cost tracking enabled, the call needs the quick accessor
    [text] of the response: on a conversation of system messages, a
    response without the attribute makes the call raise
    [AttributeError], reported once, whatever its candidates hold; the
    extraction is not reached. *)
Theorem cost_tracking_needs_response_text (self : GeminiService)
    (messages : list pyval) (contents : list string) (n : Z)
    (temperature : option float) (max_tokens : option Z) (top_p : option float)
    (kwargs : list (string * pyval)) (response : pyval) :
  cost_tracking_enabled self = true ->
  Forall2 is_system_message messages contents ->
  generate_content self
    (map (fun c => VStr ("Your general instruction: " ++ c)%string) contents)
    (generation_config self temperature max_tokens top_p) = inr response ->
  attr response "text" = None ->
  chat_completion py_str self (VList messages) n temperature max_tokens top_p
    kwargs =
  ([ErrorInChatCompletion (AttributeError "text")],
   inl (AttributeError "text")).
Proof.
  intros Hon Hmsgs Hgen Htext.
  destruct (system_messages_translate _ _ Hmsgs) as [Htr Hstr].
  unfold chat_completion.
  rewrite process_messages_list, (for_each_text_messages py_str _ _ Htr []).
  rewrite bind_ret. cbn [app].
  replace (flat_map flattened (map SystemText contents))
    with (map (fun c => VStr ("Your general instruction: " ++ c)%string) contents)
    by (clear; induction contents as [| c cs IH]; cbn;
        [| rewrite <- IH]; reflexivity).
  cbv zeta. rewrite Hgen.
  change (lift (inr response)) with (ret response). rewrite bind_ret, Hon.
  unfold estimate_cost, py_iter. rewrite bind_ret.
  rewrite (word_counts_strings _ _ Hstr), bind_ret.
  unfold getattr. rewrite Htext. reflexivity.
Qed.

End CostAndResponse.

(** ** The further properties on concrete requests and responses *)

(** Witness of X2. *)
Lemma process_messages_mixed_witness :
  Forall2 is_message
    [message "system" (VStr "X");
     message "user"
       (VList [text_part "a";
               image_part (data_url "image/png" [x4d; x61; x6e; x79]);
               VDict [("type", VStr "audio")];
               text_part "b"])]
    [SystemView "X";
     PartsView [TextView "a"; ImageView "png" [x4d; x61; x6e; x79];
                OtherView; TextView "b"]] /\
  process_messages opaque_str
    (VList [message "system" (VStr "X");
            message "user"
              (VList [text_part "a";
                      image_part (data_url "image/png" [x4d; x61; x6e; x79]);
                      VDict [("type", VStr "audio")];
                      text_part "b"])]) =
  ret [VStr "Your general instruction: X"; VStr "a";
       VDict [("mime_type", VStr "image/png");
              ("data", VBytes [x4d; x61; x6e; x79])];
       VStr "b"].
Proof.
  assert (H : Forall2 is_message
                [message "system" (VStr "X");
                 message "user"
                   (VList [text_part "a";
                           image_part (data_url "image/png" [x4d; x61; x6e; x79]);
                           VDict [("type", VStr "audio")];
                           text_part "b"])]
                [SystemView "X";
                 PartsView [TextView "a"; ImageView "png" [x4d; x61; x6e; x79];
                            OtherView; TextView "b"]]).
  { constructor; [| constructor; [| constructor]].
    - apply IsSystemView; reflexivity.
    - eapply IsPartsView.
      + apply IsPartsMessage with (role := VStr "user"); reflexivity.
      + constructor; [| constructor; [| constructor; [| constructor]]].
        * apply IsTextView. constructor; reflexivity.
        * apply IsImageView; [| discriminate | reflexivity].
          apply IsImagePart
            with (image_url :=
                    [("url", VStr (data_url "image/png" [x4d; x61; x6e; x79]))]);
            reflexivity.
        * apply IsOtherView.
          apply IsOtherPart with (type := VStr "audio"); reflexivity.
        * apply IsTextView. constructor; reflexivity.
        * constructor. }
  split; [exact H |].
  exact (process_messages_mixed opaque_str _ _ H).
Defined.

(** Witness of X4: a user message given as a plain string. *)
Lemma process_messages_string_content_witness :
  lookup "role" [("role", VStr "user"); ("content", VStr "hello")] =
  Some (VStr "user") /\
  eq_str (VStr "user") "system" = false /\
  lookup "content" [("role", VStr "user"); ("content", VStr "hello")] =
  Some (VStr "hello") /\
  raises (process_messages opaque_str (VList [message "user" (VStr "hello")]))
    TypeError.
Proof.
  repeat (split; [reflexivity |]).
  destruct (process_messages_string_content opaque_str
              [("role", VStr "user"); ("content", VStr "hello")]
              (VStr "user") "hello" [] [] eq_refl eq_refl eq_refl) as [_ H].
  destruct (H ltac:(discriminate)) as [_ Hraise].
  exact (Hraise [] eq_refl).
Defined.

(** Witness of X5: a user message without content. *)
Lemma process_messages_missing_key_witness :
  returns (process_messages opaque_str (VList [])) [] /\
  raises
    (process_messages opaque_str (VList [VDict [("role", VStr "user")]]))
    (KeyError "content").
Proof.
  split; [reflexivity |].
  destruct (process_messages_missing_key opaque_str
              [("role", VStr "user")] [] [] [] eq_refl) as (_ & H & _).
  exact (H (VStr "user") eq_refl eq_refl).
Defined.

(** Witness of X6. *)
Lemma base64_to_blob_returns_inv_witness :
  returns (base64_to_blob (VStr "data:image/png;base64,TWFueQ=="))
    (VDict [("mime_type", VStr "image/png");
            ("data", VBytes [x4d; x61; x6e; x79])]) /\
  exists subtype payload rest data,
    VStr "data:image/png;base64,TWFueQ==" =
    VStr ("data:image/" ++ subtype ++ ";base64," ++ payload ++ rest) /\
    subtype <> "" /\ no_newline subtype = true /\
    payload <> "" /\ no_newline payload = true /\
    (rest = "" \/ exists junk, rest = String "010" junk) /\
    returns (b64decode payload) data /\
    VDict [("mime_type", VStr "image/png");
           ("data", VBytes [x4d; x61; x6e; x79])] =
    VDict [("mime_type", VStr ("image/" ++ subtype)%string);
           ("data", VBytes data)].
Proof.
  split; [reflexivity |].
  exact (base64_to_blob_returns_inv
           (VStr "data:image/png;base64,TWFueQ==") _ eq_refl).
Defined.

(** A data URL followed by a line feed and more. *)
Example base64_to_blob_after_line_feed :
  base64_to_blob
    (VStr ("data:image/png;base64,TWFueQ==" ++ String "010" "not an image")) =
  ret (VDict [("mime_type", VStr "image/png");
              ("data", VBytes [x4d; x61; x6e; x79])]).
Proof. reflexivity. Qed.

(** Witness of X8: a space in the payload. *)
Lemma base64_to_blob_skips_other_characters_witness :
  plain_subtype "png" = true /\
  ("TWF" ++ "ueQ==")%string <> "" /\
  no_newline "TWF" = true /\
  no_newline "ueQ==" = true /\
  is_newline " " = false /\
  is_ascii " " = true /\
  is_skipped " " = true /\
  base64_to_blob (VStr "data:image/png;base64,TWF ueQ==") =
  base64_to_blob (VStr "data:image/png;base64,TWFueQ==").
Proof.
  repeat (split; [first [reflexivity | discriminate] |]).
  apply (base64_to_blob_skips_other_characters "png" "TWF" "ueQ==" " ");
    first [reflexivity | discriminate].
Defined.

(** Witness of X9: four symbols without pad. *)
Lemma base64_to_blob_unpadded_witness :
  plain_subtype "png" = true /\
  "TWFu" <> "" /\
  no_newline "TWFu" = true /\
  all_ascii "TWFu" = true /\
  no_pad "TWFu" = true /\
  symbol_count "TWFu" mod 4 = 0 /\
  exists data,
    base64_to_blob (VStr "data:image/png;base64,TWFu") =
    ret (VDict [("mime_type", VStr "image/png"); ("data", VBytes data)]).
Proof.
  repeat (split; [first [reflexivity | discriminate] |]).
  destruct (base64_to_blob_unpadded "png" "TWFu" eq_refl
              ltac:(discriminate) eq_refl eq_refl eq_refl) as [H _].
  exact (H eq_refl).
Defined.

(** A payload cut after its fifth and after its sixth symbol. *)
Example base64_to_blob_truncated :
  base64_to_blob (VStr "data:image/png;base64,TWFue") =
  raise (BinasciiError
           "Invalid base64-encoded string: number of data characters (5) cannot be 1 more than a multiple of 4") /\
  base64_to_blob (VStr "data:image/png;base64,TWFueQ") =
  raise (BinasciiError "Incorrect padding").
Proof. split; reflexivity. Qed.

(** Witness of X10. *)
Lemma get_text_warnings_witness :
  truthy (response_of ""
            [candidate [VObj true [("function_call", VInt 1); ("text", VStr "t");
                                   ("inline_data", VNone)] []];
             VNone]) = true /\
  attr (response_of ""
          [candidate [VObj true [("function_call", VInt 1); ("text", VStr "t");
                                 ("inline_data", VNone)] []];
           VNone]) "candidates" =
  Some (VList [candidate [VObj true [("function_call", VInt 1);
                                     ("text", VStr "t");
                                     ("inline_data", VNone)] []];
               VNone]) /\
  Forall sequences_where_present
    [candidate [VObj true [("function_call", VInt 1); ("text", VStr "t");
                           ("inline_data", VNone)] []];
     VNone] /\
  fst (get_text_from_all_candidates
         (response_of ""
            [candidate [VObj true [("function_call", VInt 1); ("text", VStr "t");
                                   ("inline_data", VNone)] []];
             VNone])) =
  [WarnNonTextParts 0 ["function_call"]; WarnCandidateNoContent 1].
Proof.
  assert (H : Forall sequences_where_present
                [candidate [VObj true [("function_call", VInt 1);
                                       ("text", VStr "t");
                                       ("inline_data", VNone)] []];
                 VNone]).
  { repeat constructor; intros content parts E1 E2; try discriminate E1.
    injection E1 as <-. injection E2 as <-. eexists. split; reflexivity. }
  split; [reflexivity | split; [reflexivity | split; [exact H |]]].
  destruct (get_text_warnings
              (response_of ""
                 [candidate [VObj true [("function_call", VInt 1);
                                        ("text", VStr "t");
                                        ("inline_data", VNone)] []];
                  VNone])
              _ eq_refl eq_refl H) as [Hlog _].
  exact Hlog.
Defined.

(** Witness of X12: a provider that is out of quota. *)
Lemma chat_completion_provider_error_witness :
  returns
    (process_messages opaque_str
       (VList [message "user" (VList [text_part "hello"])]))
    [VStr "hello"] /\
  generate_content
    {| config := config (service None VNone);
       model_name := "gemini-pro";
       generate_content := fun _ _ => inl (ProviderError "quota") |}
    [VStr "hello"]
    (generation_config
       {| config := config (service None VNone);
          model_name := "gemini-pro";
          generate_content := fun _ _ => inl (ProviderError "quota") |}
       None None None) = inl (ProviderError "quota") /\
  chat_completion opaque_str
    {| config := config (service None VNone);
       model_name := "gemini-pro";
       generate_content := fun _ _ => inl (ProviderError "quota") |}
    (VList [message "user" (VList [text_part "hello"])])
    1 None None None [] =
  ([ErrorInChatCompletion (ProviderError "quota")],
   inl (ProviderError "quota")).
Proof.
  split; [reflexivity | split; [reflexivity |]].
  exact (chat_completion_provider_error opaque_str
           {| config := config (service None VNone);
              model_name := "gemini-pro";
              generate_content := fun _ _ => inl (ProviderError "quota") |}
           (VList [message "user" (VList [text_part "hello"])])
           1%Z None None None [] [VStr "hello"] (ProviderError "quota")
           eq_refl eq_refl).
Defined.

(** Witness of X13: the call of [cost_of_ten_and_five_words] returns, and
    its messages are system messages. *)
Lemma cost_tracking_returns_only_without_parts_witness :
  cost_tracking_enabled
    (service (Some true)
       (response_of "one two three four five"
          [candidate [text_of_model "one two three four five"]])) = true /\
  returns
    (chat_completion opaque_str
       (service (Some true)
          (response_of "one two three four five"
             [candidate [text_of_model "one two three four five"]]))
       (VList [message "system" (VStr "a b c d e f");
               message "system" (VStr "g h i j")])
       1 None None None [])
    ([Some "one two three four five"], 0.2%float) /\
  Forall cost_countable
    [message "system" (VStr "a b c d e f"); message "system" (VStr "g h i j")].
Proof.
  assert (H : returns
                (chat_completion opaque_str
                   (service (Some true)
                      (response_of "one two three four five"
                         [candidate [text_of_model "one two three four five"]]))
                   (VList [message "system" (VStr "a b c d e f");
                           message "system" (VStr "g h i j")])
                   1 None None None [])
                ([Some "one two three four five"], 0.2%float))
    by (vm_compute; reflexivity).
  split; [reflexivity | split; [exact H |]].
  exact (cost_tracking_returns_only_without_parts opaque_str
           (service (Some true)
              (response_of "one two three four five"
                 [candidate [text_of_model "one two three four five"]]))
           _ _ _ _ _ _ _ eq_refl H).
Defined.

(** Witness of X14. *)
Lemma cost_tracking_rejects_bare_message_witness :
  cost_tracking_enabled
    (service (Some true) (response_of "hi" [candidate [text_of_model "hi"]])) =
  true /\
  chat_completion opaque_str
    (service (Some true) (response_of "hi" [candidate [text_of_model "hi"]]))
    (message "system" (VStr "be brief"))
    1 None None None [] =
  ([ErrorInChatCompletion (AttributeError "get")], inl (AttributeError "get")).
Proof.
  split; [reflexivity |].
  destruct (cost_tracking_rejects_bare_message opaque_str
              (service (Some true)
                 (response_of "hi" [candidate [text_of_model "hi"]]))
              [("role", VStr "system"); ("content", VStr "be brief")]
              1%Z None None None [] eq_refl) as [_ H].
  exact (H [VStr "Your general instruction: be brief"]
           (response_of "hi" [candidate [text_of_model "hi"]])
           eq_refl eq_refl).
Defined.

(** Witness of X15: ten words in, five words out. *)
Lemma chat_completion_cost_witness :
  cost_tracking_enabled
    (service (Some true)
       (response_of "one two three four five"
          [candidate [text_of_model "one two three four five"]])) = true /\
  Forall2 is_system_message
    [message "system" (VStr "a b c d e f"); message "system" (VStr "g h i j")]
    ["a b c d e f"; "g h i j"] /\
  returns (float_of_int (word_total ["a b c d e f"; "g h i j"])) 10%float /\
  returns (float_of_int (Z.of_nat (count_words "one two three four five")))
    5%float /\
  returns
    (chat_completion opaque_str
       (service (Some true)
          (response_of "one two three four five"
             [candidate [text_of_model "one two three four five"]]))
       (VList [message "system" (VStr "a b c d e f");
               message "system" (VStr "g h i j")])
       1 None None None [])
    ([Some "one two three four five"],
     (10 * 0.01 + 5 * 0.02)%float).
Proof.
  assert (Hm : Forall2 is_system_message
                 [message "system" (VStr "a b c d e f");
                  message "system" (VStr "g h i j")]
                 ["a b c d e f"; "g h i j"]).
  { repeat constructor; eexists; repeat split. }
  assert (Hin : returns (float_of_int (word_total ["a b c d e f"; "g h i j"]))
                  10%float) by (vm_compute; reflexivity).
  assert (Hout : returns
                   (float_of_int
                      (Z.of_nat (count_words "one two three four five")))
                   5%float) by (vm_compute; reflexivity).
  split; [reflexivity | split; [exact Hm | split; [exact Hin |
    split; [exact Hout |]]]].
  exact (chat_completion_cost opaque_str
           (service (Some true)
              (response_of "one two three four five"
                 [candidate [text_of_model "one two three four five"]]))
           _ _ 1%Z None None None []
           (response_of "one two three four five"
              [candidate [text_of_model "one two three four five"]])
           "one two three four five" [Some "one two three four five"]
           10%float 5%float eq_refl Hm eq_refl eq_refl eq_refl Hin Hout).
Defined.

(** Witness of X16. *)
Lemma get_text_app_witness :
  snd (get_text_from_all_candidates
         (response_of "" ([candidate [text_of_model "a"]] ++
                          [VNone; candidate [text_of_model "b"]]))) =
  both_results
    (snd (get_text_from_all_candidates
            (response_of "" [candidate [text_of_model "a"]])))
    (snd (get_text_from_all_candidates
            (response_of "" [VNone; candidate [text_of_model "b"]]))).
Proof.
  apply (get_text_app
           (response_of "" ([candidate [text_of_model "a"]] ++
                            [VNone; candidate [text_of_model "b"]]))
           (response_of "" [candidate [text_of_model "a"]])
           (response_of "" [VNone; candidate [text_of_model "b"]])
           [candidate [text_of_model "a"]]
           [VNone; candidate [text_of_model "b"]]);
    reflexivity.
Defined.

(** Witness of X17: a response with candidates and no [text]. *)
Lemma cost_tracking_needs_response_text_witness :
  cost_tracking_enabled
    (service (Some true)
       (instance [("candidates", VList [candidate [text_of_model "hi"]])])) =
  true /\
  Forall2 is_system_message [message "system" (VStr "be brief")] ["be brief"] /\
  attr (instance [("candidates", VList [candidate [text_of_model "hi"]])])
    "text" = None /\
  chat_completion opaque_str
    (service (Some true)
       (instance [("candidates", VList [candidate [text_of_model "hi"]])]))
    (VList [message "system" (VStr "be brief")])
    1 None None None [] =
  ([ErrorInChatCompletion (AttributeError "text")],
   inl (AttributeError "text")).
Proof.
  assert (Hm : Forall2 is_system_message
                 [message "system" (VStr "be brief")] ["be brief"]).
  { repeat constructor; eexists; repeat split. }
  split; [reflexivity | split; [exact Hm | split; [reflexivity |]]].
  exact (cost_tracking_needs_response_text opaque_str
           (service (Some true)
              (instance [("candidates", VList [candidate [text_of_model "hi"]])]))
           _ _ 1%Z None None None []
           (instance [("candidates", VList [candidate [text_of_model "hi"]])])
           eq_refl Hm eq_refl eq_refl).
Defined.

(** The same call without cost tracking returns. *)
Example without_cost_tracking_no_text_needed :
  chat_completion opaque_str
    (service None
       (instance [("candidates", VList [candidate [text_of_model "hi"]])]))
    (VList [message "system" (VStr "be brief")])
    1 None None None [] =
  ret ([Some "hi"], 0%float).
Proof. vm_compute. reflexivity. Qed.
